(** * twsignals: TradingView alerts forwarded to Telegram

    A shallow embedding of the ingestion-and-delivery pipeline:
    - [app/models/webhook.py]: the payload validator ([Models]);
    - [app/api/webhook.py]: the idempotency cache and the request handler
      ([Cache], [Api]);
    - [app/services/telegram.py]: the formatter, the rate-limit gate and the
      retry loop ([Telegram]);
    - [app/core/security.py]: the signature verifier and the signature
      generator ([Security], [Signing]);
    - [app/api/webhook.py], [app/services/telegram.py]: the background
      task and the send it makes ([Background], [Delivery]);
    - [app/core/config.py]: the validators of the settings ([Config]).

    Conventions.  A Python [str] is held as its UTF-8 bytes and its length
    is counted in code points ([PyLen.len]).  The case, whitespace and
    digit operations are Python's on the ASCII characters and leave every
    other byte alone: they are Python's operations on ASCII text, and a
    statement that depends on what Python does to other letters, blanks or
    digits ([upper] can lengthen a string, [isdigit] knows more digits) is
    stated for ASCII input.  A Python [float] that holds seconds or a price
    is modelled as an exact rational ([Q]): infinities and NaN have no
    counterpart, and [round] is the decimal rounding, of which Python
    returns the nearest double.  A [datetime] is its number of microseconds
    ([Z]).  Of the logging, only the [signature_present] field written by
    the request handler is kept. *)

From Stdlib Require Import ZArith QArith Qabs Lia Lqa Ascii String.
From stdpp Require Import gmap strings list pretty.

Local Open Scope Z_scope.

(* ===================================================================== *)
(** ** Comparisons of rationals as booleans *)
(* ===================================================================== *)

Definition Qltb (x y : Q) : bool := negb (Qle_bool y x).
Definition Qleb (x y : Q) : bool := Qle_bool x y.

(* ===================================================================== *)
(** ** Python string operations, on ASCII *)
(* ===================================================================== *)

Module PyStr.

(** [c.isspace()] for a code point below 128: TAB..CR, FS..US and space. *)
Definition is_space (c : ascii) : bool :=
  let n := nat_of_ascii c in
  ((9 <=? n) && (n <=? 13) || (28 <=? n) && (n <=? 31) || (n =? 32))%nat.

Definition is_lower (c : ascii) : bool :=
  let n := nat_of_ascii c in ((97 <=? n) && (n <=? 122))%nat.

Definition is_upper (c : ascii) : bool :=
  let n := nat_of_ascii c in ((65 <=? n) && (n <=? 90))%nat.

Definition upper_char (c : ascii) : ascii :=
  if is_lower c then ascii_of_nat (nat_of_ascii c - 32) else c.

Definition lower_char (c : ascii) : ascii :=
  if is_upper c then ascii_of_nat (nat_of_ascii c + 32) else c.

Fixpoint map_chars (f : ascii -> ascii) (s : string) : string :=
  match s with
  | EmptyString => EmptyString
  | String c r => String (f c) (map_chars f r)
  end.

(** [s.upper()], [s.lower()] *)
Definition upper : string -> string := map_chars upper_char.
Definition lower : string -> string := map_chars lower_char.

(** [s.capitalize()]: first character upper-cased, the rest lower-cased. *)
Definition capitalize (s : string) : string :=
  match s with
  | EmptyString => EmptyString
  | String c r => String (upper_char c) (lower r)
  end.

Fixpoint lstrip (s : string) : string :=
  match s with
  | EmptyString => EmptyString
  | String c r => if is_space c then lstrip r else s
  end.

Fixpoint rstrip (s : string) : string :=
  match s with
  | EmptyString => EmptyString
  | String c r =>
      match rstrip r with
      | EmptyString => if is_space c then EmptyString else String c EmptyString
      | r' => String c r'
      end
  end.

(** [s.strip()] *)
Definition strip (s : string) : string := rstrip (lstrip s).

(** [bool(s)]: a string is truthy when it is not empty. *)
Definition truthy (s : string) : bool :=
  match s with EmptyString => false | _ => true end.

(** [bool(o)] for an [Optional[str]]. *)
Definition opt_truthy (o : option string) : bool :=
  match o with Some s => truthy s | None => false end.

(** [s.startswith(p)] *)
Definition startswith (s p : string) : bool := String.prefix p s.

(** [s.isascii()] *)
Fixpoint isascii (s : string) : bool :=
  match s with
  | EmptyString => true
  | String c r => (nat_of_ascii c <? 128)%nat && isascii r
  end.

(** ["\n".join(lines)] (and any other separator) *)
Fixpoint join (sep : string) (lines : list string) : string :=
  match lines with
  | [] => EmptyString
  | [l] => l
  | l :: rest => l +:+ sep +:+ join sep rest
  end.

Definition newline : string := String (ascii_of_nat 10) EmptyString.

End PyStr.

(* ===================================================================== *)
(** ** Lengths in code points *)
(* ===================================================================== *)

Module PyLen.

(** A byte of the form 10xxxxxx continues a UTF-8 sequence. *)
Definition is_continuation (c : ascii) : bool :=
  let n := nat_of_ascii c in ((128 <=? n) && (n <? 192))%nat.

(** [len(s)] for a [str] held as its UTF-8 bytes: the bytes that start a
    code point. *)
Fixpoint len (s : string) : nat :=
  match s with
  | EmptyString => O
  | String c r => if is_continuation c then len r else S (len r)
  end.

End PyLen.

(* ===================================================================== *)
(** ** The validated payload, [TradingViewWebhook] *)
(* ===================================================================== *)

Record TradingViewWebhook := mkWebhook {
  ticker   : string;
  signal   : string;
  price    : Q;
  time     : string;
  interval : option string;
  chart    : option string
}.

(* ===================================================================== *)
(** ** The payload validator of [app/models/webhook.py] *)
(* ===================================================================== *)

Module Models.

(** The keyword arguments handed to the constructor call in the handler,
    after pydantic has coerced each value to the annotated type.  [None]
    stands for a missing (or null) value; a price is a finite number. *)
Record RawWebhook := mkRaw {
  raw_ticker   : option string;
  raw_signal   : option string;
  raw_price    : option Q;
  raw_time     : option string;
  raw_interval : option string;
  raw_chart    : option string
}.

(** One entry of a pydantic [ValidationError]. *)
Inductive field_error :=
| missing
| string_too_short
| string_too_long
| string_pattern_mismatch
| greater_than
| value_error (msg : string).

Inductive validated (A : Type) :=
| Valid (a : A)
| Invalid (e : field_error).
Arguments Valid {A} a.
Arguments Invalid {A} e.

(** Regular expressions made of literals and alternation, matched between
    the anchors [^] and [$], that is against the whole string. *)
Inductive regex :=
| RLit (s : string)
| RAlt (r1 r2 : regex).

Fixpoint fullmatch (r : regex) (s : string) : bool :=
  match r with
  | RLit l => String.eqb l s
  | RAlt r1 r2 => fullmatch r1 s || fullmatch r2 s
  end.

(** [pattern="^(Buy|Sell)$"] *)
Definition signal_pattern : regex := RAlt (RLit "Buy") (RLit "Sell").

(** The field constraints ([min_length], [max_length], [pattern], [gt])
    belong to the field's own schema; a [@field_validator] (mode "after")
    runs on the value that has passed them. *)

(** [ticker: str = Field(..., min_length=1, max_length=20)] followed by
    [validate_ticker]; the two bounds count code points. *)
Definition validate_ticker (v : string) : string :=
  PyStr.strip (PyStr.upper v).

Definition ticker_field (o : option string) : validated string :=
  match o with
  | None => Invalid missing
  | Some v =>
      if (PyLen.len v <? 1)%nat then Invalid string_too_short
      else if (20 <? PyLen.len v)%nat then Invalid string_too_long
      else Valid (validate_ticker v)
  end.

(** [signal: str = Field(..., pattern="^(Buy|Sell)$")] followed by
    [validate_signal]. *)
Definition validate_signal (v : string) : string := PyStr.capitalize v.

Definition signal_field (o : option string) : validated string :=
  match o with
  | None => Invalid missing
  | Some v =>
      if fullmatch signal_pattern v then Valid (validate_signal v)
      else Invalid string_pattern_mismatch
  end.

(** Rounding to the nearest integer, ties to even. *)
Definition round_half_even (x : Q) : Z :=
  let n := Qnum x in
  let d := Z.pos (Qden x) in
  let q := n / d in
  let r := n mod d in
  match 2 * r ?= d with
  | Lt => q
  | Gt => q + 1
  | Eq => if Z.even q then q else q + 1
  end.

(** [round(v, ndigits)]: the multiple of [10 ^ -ndigits] nearest to [v],
    ties to even.  Python returns the double nearest to this decimal. *)
Definition py_round (v : Q) (ndigits : nat) : Q :=
  let scale := 10 ^ Z.of_nat ndigits in
  Qmake (round_half_even (v * inject_Z scale)) (Z.to_pos scale).

(** [price: float = Field(..., gt=0)] followed by [validate_price]. *)
Definition validate_price (v : Q) : validated Q :=
  if Qleb v 0 then Invalid (value_error "Price must be positive")
  else Valid (py_round v 8).

Definition price_field (o : option Q) : validated Q :=
  match o with
  | None => Invalid missing
  | Some v =>
      if Qltb 0 v then validate_price v else Invalid greater_than
  end.

(** [time: str = Field(...)] followed by [validate_time]. *)
Definition validate_time (v : string) : validated string :=
  if negb (PyStr.truthy v) then Invalid (value_error "Timestamp cannot be empty")
  else Valid (PyStr.strip v).

Definition time_field (o : option string) : validated string :=
  match o with
  | None => Invalid missing
  | Some v => validate_time v
  end.

(** [chart: Optional[str]] followed by [validate_chart_url]. *)
Definition validate_chart_url (v : option string) : validated (option string) :=
  match v with
  | Some u =>
      if PyStr.truthy u
         && negb (PyStr.startswith u "http://" || PyStr.startswith u "https://")
      then Invalid (value_error "Chart URL must be a valid HTTP/HTTPS URL")
      else Valid v
  | None => Valid v
  end.

Definition errors_of {A} (name : string) (r : validated A)
    : list (string * field_error) :=
  match r with
  | Valid _ => []
  | Invalid e => [(name, e)]
  end.

(** Construction of the model from [raw]: every field is validated on its
    own and all the failures are reported together. *)
Definition validate (raw : RawWebhook)
    : list (string * field_error) + TradingViewWebhook :=
  let t := ticker_field (raw_ticker raw) in
  let s := signal_field (raw_signal raw) in
  let p := price_field (raw_price raw) in
  let tm := time_field (raw_time raw) in
  let c := validate_chart_url (raw_chart raw) in
  match t, s, p, tm, c with
  | Valid t', Valid s', Valid p', Valid tm', Valid c' =>
      inr (mkWebhook t' s' p' tm' (raw_interval raw) c')
  | _, _, _, _, _ =>
      inl (errors_of "ticker" t ++ errors_of "signal" s ++ errors_of "price" p
           ++ errors_of "time" tm ++ errors_of "chart" c)
  end.

End Models.

(* ===================================================================== *)
(** ** The idempotency cache of [app/api/webhook.py] *)
(* ===================================================================== *)

Module Cache.

(** [_message_cache: Dict[str, float]] is process-wide state; the
    functions below take it and return its new value.  [now] is the value
    read from [time.time()], [cache_ttl] is [settings.cache_ttl]. *)

(** [f"{ticker}:{signal}:{time}"] *)
Definition cache_key (w : TradingViewWebhook) : string :=
  ticker w +:+ ":" +:+ signal w +:+ ":" +:+ time w.

Definition is_duplicate_message
    (cache_ttl : Z) (now : Q) (w : TradingViewWebhook)
    (_message_cache : gmap string Q) : bool * gmap string Q :=
  let key := cache_key w in
  match _message_cache !! key with
  | Some timestamp =>
      if Qltb (now - timestamp) (inject_Z cache_ttl)
      then (true, _message_cache)
      else (false, <[key := now]> (delete key _message_cache))
  | None => (false, <[key := now]> _message_cache)
  end.

(** [expired_keys] are collected first and popped afterwards: a filter. *)
Definition cleanup_cache
    (cache_ttl : Z) (now : Q) (_message_cache : gmap string Q)
    : gmap string Q :=
  filter (fun kv => negb (Qltb (inject_Z cache_ttl) (now - kv.2)))
         _message_cache.

End Cache.

(* ===================================================================== *)
(** ** The settings read by the pipeline ([app/core/config.py]) *)
(* ===================================================================== *)

Record Settings := mkSettings {
  tv_webhook_secret : string;
  tg_chat_id        : string;
  tg_retry_attempts : Z;
  tg_retry_delay    : Q;
  tg_retry_backoff  : Q;
  cache_ttl         : Z
}.

(* ===================================================================== *)
(** ** The delivery client of [app/services/telegram.py] *)
(* ===================================================================== *)

Module Telegram.

(** *** Rendering of the price *)

Definition digit (d : Z) : ascii := ascii_of_nat (48 + Z.to_nat d).

(** [n] written on exactly [width] decimal digits. *)
Fixpoint digits_fixed (width : nat) (n : Z) : string :=
  match width with
  | O => EmptyString
  | S w => digits_fixed w (n / 10) +:+ String (digit (n mod 10)) EmptyString
  end.

Fixpoint strip_zeros (s : string) : string :=
  match s with
  | EmptyString => EmptyString
  | String c r =>
      match strip_zeros r with
      | EmptyString => if Ascii.eqb c "0" then EmptyString else String c EmptyString
      | r' => String c r'
      end
  end.

(** [str(x)] for a float that holds a decimal with at most 8 fractional
    digits, as the validated price does: the integer part, a point, and
    the fractional digits without trailing zeros (at least one digit).
    Python prints this form for 1e-4 <= |x| < 1e16; outside that range it
    switches to exponent notation, which is not modelled. *)
Definition float_str (x : Q) : string :=
  let k := Models.round_half_even (Qabs x * inject_Z (10 ^ 8)) in
  let sign := if Qltb x 0 then "-" else "" in
  let frac := match strip_zeros (digits_fixed 8 (k mod 10 ^ 8)) with
              | EmptyString => "0"
              | f => f
              end in
  sign +:+ pretty (Z.to_N (k / 10 ^ 8)) +:+ "." +:+ frac.

(** *** [_format_message] *)

Definition _format_message (w : TradingViewWebhook) : string :=
  let line0 := "<b>" +:+ ticker w +:+ "</b>" in
  let line1 := "Signal: <i>" +:+ signal w +:+ "</i>  Price: " +:+ float_str (price w) in
  let line0 :=
    match interval w with
    | Some i => if PyStr.truthy i then line0 +:+ "  (" +:+ i +:+ ")" else line0
    | None => line0
    end in
  let message_lines := [line0; line1] ++ ["🕒 " +:+ time w] in
  let message_lines :=
    match chart w with
    | Some c =>
        if PyStr.truthy c
        then message_lines ++ ["📈 <a href='" +:+ c +:+ "'>Chart</a>"]
        else message_lines
    | None => message_lines
    end in
  PyStr.join PyStr.newline message_lines.

(** *** [_check_rate_limit] *)

(** A [datetime] is its number of microseconds, so [timedelta(seconds=1)]
    is [second]. *)
Definition second : Z := 1000000.

Record RateLimit := mkRateLimit {
  _request_count : Z;
  _rate_limit_reset_time : option Z
}.

(** [TelegramService.__init__] *)
Definition fresh : RateLimit := mkRateLimit 0 None.

(** [now] is the first reading of [datetime.utcnow()]; [now_after] is the
    reading taken after the sleep, when there is one.  The result carries
    the duration slept (in microseconds), if any. *)
Definition _check_rate_limit (now now_after : Z) (rl : RateLimit)
    : option Z * RateLimit :=
  let rl :=
    match _rate_limit_reset_time rl with
    | None => mkRateLimit 0 (Some (now + second))
    | Some reset =>
        if reset <=? now then mkRateLimit 0 (Some (now + second)) else rl
    end in
  if 30 <=? _request_count rl then
    let sleep_time :=
      match _rate_limit_reset_time rl with
      | Some reset => reset - now
      | None => 0
      end in
    if 0 <? sleep_time then
      (Some sleep_time, mkRateLimit (0 + 1) (Some (now_after + second)))
    else
      (None, mkRateLimit (_request_count rl + 1) (_rate_limit_reset_time rl))
  else
    (None, mkRateLimit (_request_count rl + 1) (_rate_limit_reset_time rl)).

(** *** [_send_message_with_retry] *)

(** What [response.headers.get("Retry-After", 1)] holds, seen through
    [int(...)]. *)
Inductive retry_after_header :=
| HeaderAbsent
| HeaderInt (n : Z)
| HeaderNotInt.

(** The parts of an HTTP response the loop looks at.  [json_ok] is the
    truth value of [response.json().get("ok")], [None] when decoding the
    body or reading the fields the loop looks up raises. *)
Record response := mkResponse {
  status_code : Z;
  json_ok     : option bool;
  retry_after : retry_after_header
}.

(** What one [await self.client.post(...)] does. *)
Inductive post_outcome :=
| Responded (r : response)
| TimeoutException
| RequestError
| OtherException.

(** The [TelegramError]s the loop raises; [RateLimitError] is the
    subclass [TelegramRateLimitError]. *)
Inductive TelegramError :=
| ApiError
| RateLimitError (retry_after_s : Z)
| HttpError (status : Z)
| TimeoutError (attempts : Z)
| RequestFailed
| UnexpectedError
| FailedAfter (attempts : Z).

(** What can be observed of a send: the POSTs and the three kinds of
    [asyncio.sleep]. *)
Inductive event :=
| Post (attempt : nat)
| RateLimitSleep (seconds : Q)
| RetryAfterSleep (seconds : Z)
| BackoffSleep (seconds : Q).

(** How the body of the [try] ends. *)
Inductive body_result :=
| BReturn (r : response)
| BContinue (retry_after_s : Z)
| BTelegramError (e : TelegramError)
| BTimeoutException
| BRequestError
| BException.

(** How the [try] statement as a whole ends: [Handled] when an [except]
    clause swallowed the exception and control reaches the statement
    after the [try]. *)
Inductive try_result :=
| Return (r : response)
| Continue (retry_after_s : Z)
| Raise (e : TelegramError)
| Handled.

Record Service := mkService {
  limiter     : RateLimit;
  clock_reads : nat;
  trace       : list event
}.

Definition log (e : event) (sv : Service) : Service :=
  mkService (limiter sv) (clock_reads sv) (trace sv ++ [e]).

Section Send.

Variable settings : Settings.
(** The successive readings of [datetime.utcnow()]. *)
Variable clock : nat -> Z.
(** The outcome of the POST of each attempt. *)
Variable transport : nat -> post_outcome.

(** [await self._check_rate_limit()] *)
Definition rate_limit_gate (sv : Service) : Service :=
  let r := _check_rate_limit (clock (clock_reads sv))
                             (clock (S (clock_reads sv))) (limiter sv) in
  match fst r with
  | Some slept =>
      mkService (snd r) (S (S (clock_reads sv)))
                (trace sv ++ [RateLimitSleep (Qmake slept 1000000)])
  | None =>
      mkService (snd r) (S (clock_reads sv)) (trace sv)
  end.

Definition try_body (attempt : Z) (o : post_outcome) : body_result :=
  match o with
  | TimeoutException => BTimeoutException
  | RequestError => BRequestError
  | OtherException => BException
  | Responded r =>
      if status_code r =? 200 then
        match json_ok r with
        | None => BException
        | Some true => BReturn r
        | Some false => BTelegramError ApiError
        end
      else if status_code r =? 429 then
        let rate_limited (n : Z) :=
          if attempt <? tg_retry_attempts settings - 1
          then BContinue n
          else BTelegramError (RateLimitError n) in
        match retry_after r with
        | HeaderAbsent => rate_limited 1
        | HeaderInt n => rate_limited n
        | HeaderNotInt => BException
        end
      else BTelegramError (HttpError (status_code r))
  end.

Definition except_clauses (attempt : Z) (b : body_result) : try_result :=
  match b with
  | BReturn r => Return r
  | BContinue n => Continue n
  | BTimeoutException =>
      if attempt =? tg_retry_attempts settings - 1
      then Raise (TimeoutError (tg_retry_attempts settings))
      else Handled
  | BRequestError =>
      if attempt =? tg_retry_attempts settings - 1
      then Raise RequestFailed
      else Handled
  | BTelegramError e => Raise e
  | BException =>
      if attempt =? tg_retry_attempts settings - 1
      then Raise UnexpectedError
      else Handled
  end.

(** [delay = tg_retry_delay * (tg_retry_backoff ** attempt)] *)
Definition backoff_delay (attempt : Z) : Q :=
  tg_retry_delay settings * tg_retry_backoff settings ^ attempt.

(** The iterations [attempt, attempt + 1, ...] of
    [for attempt in range(tg_retry_attempts)], [remaining] of them, and
    the [raise] that follows the loop. *)
Fixpoint attempts_from (remaining attempt : nat) (sv : Service)
    : (TelegramError + response) * Service :=
  match remaining with
  | O => (inl (FailedAfter (tg_retry_attempts settings)), sv)
  | S k =>
      let sv := log (Post attempt) (rate_limit_gate sv) in
      match except_clauses (Z.of_nat attempt)
              (try_body (Z.of_nat attempt) (transport attempt)) with
      | Return r => (inr r, sv)
      | Raise e => (inl e, sv)
      | Continue n => attempts_from k (S attempt) (log (RetryAfterSleep n) sv)
      | Handled =>
          let sv :=
            if Z.of_nat attempt <? tg_retry_attempts settings - 1
            then log (BackoffSleep (backoff_delay (Z.of_nat attempt))) sv
            else sv in
          attempts_from k (S attempt) sv
      end
  end.

Definition _send_message_with_retry (sv : Service)
    : (TelegramError + response) * Service :=
  attempts_from (Z.to_nat (tg_retry_attempts settings)) 0 sv.

End Send.

(** The POSTs and the backoff delays of a trace. *)
Definition posts (t : list event) : list nat :=
  omap (fun e => match e with Post a => Some a | _ => None end) t.

Definition backoffs (t : list event) : list Q :=
  omap (fun e => match e with BackoffSleep d => Some d | _ => None end) t.

(** A POST that makes the loop return: HTTP 200 with a true [ok] flag. *)
Definition succeeds (o : post_outcome) : bool :=
  match o with
  | Responded r =>
      (status_code r =? 200)
      && match json_ok r with Some true => true | _ => false end
  | _ => false
  end.

(** A transport-level failure: a timeout or a connection error. *)
Definition is_transient (o : post_outcome) : bool :=
  match o with
  | TimeoutException | RequestError => true
  | _ => false
  end.

(** Successive calls of [_check_rate_limit] on one service, one pair of
    clock readings per call: the sleeps, call by call, and the limiter
    that is left. *)
Fixpoint rate_limit_calls (readings : list (Z * Z)) (rl : RateLimit)
    : list (option Z) * RateLimit :=
  match readings with
  | [] => ([], rl)
  | r :: rest =>
      let c := _check_rate_limit r.1 r.2 rl in
      let cs := rate_limit_calls rest c.2 in
      (c.1 :: cs.1, cs.2)
  end.

(** The text of a message without its [<...>] tags. *)
Fixpoint strip_tags (in_tag : bool) (s : string) : string :=
  match s with
  | EmptyString => EmptyString
  | String c r =>
      if in_tag then strip_tags (negb (Ascii.eqb c ">")) r
      else if Ascii.eqb c "<" then strip_tags true r
      else String c (strip_tags false r)
  end.

Definition unstyled (s : string) : string := strip_tags false s.

End Telegram.

(* ===================================================================== *)
(** ** The signature verifier of [app/core/security.py] *)
(* ===================================================================== *)

Module Security.

(** The messages of the [SignatureError]s raised. *)
Inductive SignatureError :=
| MissingSignature
| SecretNotConfigured
| InvalidSignature
| ValidationFailed.

(** What the body of the [try] can raise. *)
Inductive raised :=
| RaisedSignatureError (e : SignatureError)
| RaisedTypeError.

(** [hmac.compare_digest(a, b)] on two [str]: a [TypeError] unless both
    are ASCII, their equality otherwise. *)
Definition compare_digest (a b : string) : raised + bool :=
  if PyStr.isascii a && PyStr.isascii b then inr (String.eqb a b)
  else inl RaisedTypeError.

Section Verify.

(** [hmac.new(key, payload, hashlib.sha256).hexdigest()] *)
Variable hexdigest : string -> string -> string.

Definition try_block (secret payload signature : string) : raised + bool :=
  let expected_signature := hexdigest secret payload in
  match compare_digest expected_signature signature with
  | inl e => inl e
  | inr is_valid =>
      if negb is_valid then inl (RaisedSignatureError InvalidSignature)
      else inr true
  end.

Definition verify_webhook_signature
    (settings : Settings) (payload signature : string)
    : SignatureError + bool :=
  if negb (PyStr.truthy signature) then inl MissingSignature
  else if negb (PyStr.truthy (tv_webhook_secret settings))
  then inl SecretNotConfigured
  else
    match try_block (tv_webhook_secret settings) payload signature with
    | inr b => inr b
    | inl (RaisedSignatureError e) => inl e
    | inl RaisedTypeError => inl ValidationFailed
    end.

End Verify.

End Security.

(* ===================================================================== *)
(** ** The request handler of [app/api/webhook.py] *)
(* ===================================================================== *)

Module Api.

(** [body] is what [await request.body()] gives: the bytes received, or
    [None] when reading them raises (the client has gone away). *)
Record Request := mkRequest {
  headers : list (string * string);
  body    : option string
}.

(** [request.headers.get(name, default)]: header names compare without
    regard to case, the first match wins. *)
Definition same_header (name : string) (kv : string * string) : bool :=
  String.eqb (PyStr.lower kv.1) (PyStr.lower name).

Definition headers_get (name default : string) (hs : list (string * string))
    : string :=
  match List.find (same_header name) hs with
  | Some kv => kv.2
  | None => default
  end.

Record WebhookResponse := mkWebhookResponse {
  status     : string;
  message    : option string;
  request_id : option string;
  timestamp  : Z
}.

Inductive task :=
| process_webhook_background (w : TradingViewWebhook) (request_id : string)
| cleanup_cache.

Inductive detail :=
| InvalidJSONPayload
| InvalidWebhookData (errors : list (string * Models.field_error))
| InvalidArguments.

(** An [HTTPException] leaves the handler as the response of that status
    whose body is its detail. *)
Inductive reply :=
| HTTPException (status_code : Z) (d : detail)
| JSONResponse (status_code : Z) (content : WebhookResponse)
               (x_request_id : string).

Record handled := mkHandled {
  response          : reply;
  background_tasks  : list task;
  (* the field logged by the handler, when it gets that far *)
  signature_present : option bool
}.

Section Handler.

(** [await request.json()]: [None] when the body is not JSON,
    [Some None] when it is JSON but not an object that can be passed as
    keyword arguments, [Some (Some raw)] otherwise. *)
Variable json : string -> option (option Models.RawWebhook).

(** [request_id] is what [get_request_id()] returns, [now] the reading
    of [datetime.utcnow()] that stamps the response.  The [HTTPException]s
    raised inside the [try] are raised again; any other exception, here
    the one of reading the body, is answered by the last [except] clause
    with a 500. *)
Definition receive_tradingview_webhook
    (request_id : string) (now : Z) (_message_cache : gmap string Q)
    (request : Request) : handled :=
  match body request with
  | None =>
      mkHandled
        (JSONResponse 500
           (mkWebhookResponse "error" (Some "Internal server error")
              (Some request_id) now)
           request_id)
        [] None
  | Some body =>
      let signature := headers_get "X-Signature" "" (headers request) in
      let present := Some (PyStr.truthy signature) in
      match json body with
      | None => mkHandled (HTTPException 400 InvalidJSONPayload) [] present
      | Some None => mkHandled (HTTPException 422 InvalidArguments) [] present
      | Some (Some json_data) =>
          match Models.validate json_data with
          | inl errors =>
              mkHandled (HTTPException 422 (InvalidWebhookData errors)) []
                        present
          | inr webhook_data =>
              let tasks :=
                [process_webhook_background webhook_data request_id] in
              let tasks :=
                if (100 <? size _message_cache)%nat
                then tasks ++ [cleanup_cache] else tasks in
              mkHandled
                (JSONResponse 202
                   (mkWebhookResponse "accepted"
                      (Some "Webhook received and processing")
                      (Some request_id) now)
                   request_id)
                tasks present
          end
      end
  end.

(** [request_middleware] of [app/main.py] chooses the request id before
    the handler runs: the [X-Request-ID] header, or else a fresh UUID. *)
Definition post_webhook
    (uuid4 : string) (now : Z) (_message_cache : gmap string Q)
    (request : Request) : handled :=
  let request_id := headers_get "X-Request-ID" uuid4 (headers request) in
  receive_tradingview_webhook request_id now _message_cache request.

End Handler.

(** The headers of a request other than [X-Signature]. *)
Definition without_signature (hs : list (string * string))
    : list (string * string) :=
  List.filter (fun kv => negb (same_header "X-Signature" kv)) hs.

End Api.

(* ===================================================================== *)
(** ** Rebuilding a payload from its own fields *)
(* ===================================================================== *)

Module Revalidate.

(** The keyword arguments [w.model_dump()] gives back for a payload. *)
Definition model_dump (w : TradingViewWebhook) : Models.RawWebhook :=
  Models.mkRaw (Some (ticker w)) (Some (signal w)) (Some (price w))
               (Some (time w)) (interval w) (chart w).

End Revalidate.

(* ===================================================================== *)
(** ** [send_trading_signal] of [app/services/telegram.py] *)
(* ===================================================================== *)

Module Delivery.

Import Telegram.

(** [TelegramMessage] of [app/models/webhook.py]. *)
Record TelegramMessage := mkTelegramMessage {
  chat_id : string;
  text : string;
  parse_mode : string;
  disable_web_page_preview : bool
}.

(** [validate_text_length], which repeats the [max_length=4096] of the
    field: [None] stands for the [ValidationError]. *)
Definition validate_text_length (v : string) : option string :=
  if (4096 <? PyLen.len v)%nat then None else Some v.

Definition new_TelegramMessage
    (chat text mode : string) (no_preview : bool) : option TelegramMessage :=
  if (4096 <? PyLen.len text)%nat then None
  else
    match validate_text_length text with
    | Some v => Some (mkTelegramMessage chat v mode no_preview)
    | None => None
    end.

(** What [send_trading_signal] raises: the [TelegramError] made of a
    [ValidationError], or the error of the retry loop passed on. *)
Inductive send_error :=
| MessageValidationFailed
| SendFailed (e : TelegramError).

Section SendSignal.

Variable settings : Settings.
Variable clock : nat -> Z.
Variable transport : nat -> post_outcome.

Definition send_trading_signal (sv : Service) (w : TradingViewWebhook)
    : (send_error + response) * Service :=
  let message_text := _format_message w in
  match new_TelegramMessage (tg_chat_id settings) message_text "HTML" true with
  | None => (inl MessageValidationFailed, sv)
  | Some message =>
      let out := _send_message_with_retry settings clock transport sv in
      match out.1 with
      | inr result => (inr result, out.2)
      | inl e => (inl (SendFailed e), out.2)
      end
  end.

End SendSignal.

(** Sends made one after another through one service, each with its own
    transport and payload.  No caller in the program does so (each makes a
    service for a single send); this is what sharing the service would
    give. *)
Fixpoint send_all (settings : Settings) (clock : nat -> Z)
    (sends : list ((nat -> post_outcome) * TradingViewWebhook))
    (sv : Service) : list (send_error + response) * Service :=
  match sends with
  | [] => ([], sv)
  | one :: rest =>
      let out := send_trading_signal settings clock one.1 sv one.2 in
      let outs := send_all settings clock rest out.2 in
      (out.1 :: outs.1, outs.2)
  end.

(** The sleeps of the rate-limit gate and the sleeps asked for by the
    remote, in a trace. *)
Definition rate_limit_sleeps (t : list event) : list Q :=
  omap (fun e => match e with RateLimitSleep d => Some d | _ => None end) t.


End Delivery.

(* ===================================================================== *)
(** ** [process_webhook_background] of [app/api/webhook.py] *)
(* ===================================================================== *)

Module Background.

Import Telegram Delivery.

(** How the task ends; it catches every exception and returns nothing. *)
Inductive outcome :=
| Skipped
| Processed (result : response)
| Failed (e : send_error).

Record finished := mkFinished {
  result : outcome;
  cache_after : gmap string Q;
  events : list event
}.

Section Task.

Variable settings : Settings.
(** The readings of [datetime.utcnow()] by the service the task creates. *)
Variable clock : nat -> Z.
Variable transport : nat -> post_outcome.

(** [now] is the reading of [time.time()] in [is_duplicate_message]; the
    task works on a [TelegramService()] of its own. *)
Definition process_webhook_background
    (now : Q) (webhook_data : TradingViewWebhook)
    (_message_cache : gmap string Q) : finished :=
  let d := Cache.is_duplicate_message (cache_ttl settings) now webhook_data
             _message_cache in
  if d.1 then mkFinished Skipped d.2 []
  else
    let telegram := mkService fresh 0 [] in
    let sent := send_trading_signal settings clock transport telegram
                  webhook_data in
    match sent.1 with
    | inr r => mkFinished (Processed r) d.2 (trace sent.2)
    | inl e => mkFinished (Failed e) d.2 (trace sent.2)
    end.

End Task.

(** What one task is run with: the reading of [time.time()], the payload,
    and the clock and the transport of the service it creates. *)
Record job := mkJob {
  job_now : Q;
  job_payload : TradingViewWebhook;
  job_clock : nat -> Z;
  job_transport : nat -> post_outcome
}.

(** Tasks run one after another; the cache is all they share. *)
Fixpoint run_tasks (settings : Settings) (jobs : list job)
    (_message_cache : gmap string Q) : list finished :=
  match jobs with
  | [] => []
  | j :: rest =>
      let f := process_webhook_background settings (job_clock j)
                 (job_transport j) (job_now j) (job_payload j)
                 _message_cache in
      f :: run_tasks settings rest (cache_after f)
  end.

End Background.

(* ===================================================================== *)
(** ** [generate_webhook_signature] of [app/core/security.py] *)
(* ===================================================================== *)

Module Signing.

(** One hexadecimal digit, lower case. *)
Definition hex_digit (n : nat) : ascii :=
  if (n <? 10)%nat then ascii_of_nat (48 + n) else ascii_of_nat (87 + n).

(** The value of a hexadecimal digit. *)
Definition unhex_digit (c : ascii) : nat :=
  let n := nat_of_ascii c in
  if (n <? 58)%nat then (n - 48)%nat else (n - 87)%nat.

(** [bytes.hex()] *)
Fixpoint hex (bytes : string) : string :=
  match bytes with
  | EmptyString => EmptyString
  | String c r =>
      let n := nat_of_ascii c in
      String (hex_digit (n / 16)) (String (hex_digit (n mod 16)) (hex r))
  end.

Section Generate.

(** [hmac.new(key, payload, hashlib.sha256).digest()] *)
Variable digest : string -> string -> string.

(** [hexdigest()] is the digest in hexadecimal. *)
Definition hexdigest (key payload : string) : string :=
  hex (digest key payload).

(** [None] stands for the [ValueError]. *)
Definition generate_webhook_signature
    (settings : Settings) (payload : string) (secret : option string)
    : option string :=
  let secret_key :=
    if PyStr.opt_truthy secret
    then match secret with Some k => k | None => EmptyString end
    else tv_webhook_secret settings in
  if negb (PyStr.truthy secret_key) then None
  else Some (hexdigest secret_key payload).

End Generate.

End Signing.

(* ===================================================================== *)
(** ** Ways to describe a run of the delivery client *)
(* ===================================================================== *)

Module Runs.

Import Telegram.

(** Clock readings in the order they are taken: each call reads [now] not
    before [t], reads [now_after] not before [now], and the next call comes
    after that. *)
Fixpoint chronological (t : Z) (readings : list (Z * Z)) : Prop :=
  match readings with
  | [] => True
  | r :: rest => t <= r.1 /\ r.1 <= r.2 /\ chronological r.2 rest
  end.

(** The window of the service closes at most one second after [t]. *)
Definition window_within (t : Z) (rl : RateLimit) : Prop :=
  match _rate_limit_reset_time rl with
  | Some R => R <= t + second
  | None => True
  end.




End Runs.

(* ===================================================================== *)
(** ** The validators of the settings ([app/core/config.py]) *)
(* ===================================================================== *)

Module Config.

Import Models.

Definition valid_levels : list string :=
  ["DEBUG"; "INFO"; "WARNING"; "ERROR"; "CRITICAL"].

(** [x in xs] for a list of strings. *)
Definition member (x : string) (xs : list string) : bool :=
  existsb (String.eqb x) xs.

(** [validate_log_level] *)
Definition validate_log_level (v : string) : validated string :=
  if negb (member (PyStr.upper v) valid_levels)
  then Invalid (value_error "Log level must be one of the valid levels")
  else Valid (PyStr.upper v).

(** [c.isdigit()] for a code point below 128; Python's [isdigit] is also
    true of digits beyond ASCII, which [is_digit] does not know. *)
Definition is_digit (c : ascii) : bool :=
  let n := nat_of_ascii c in ((48 <=? n) && (n <=? 57))%nat.

Fixpoint all_digits (s : string) : bool :=
  match s with
  | EmptyString => true
  | String c r => is_digit c && all_digits r
  end.

(** [s.isdigit()] for an ASCII string: at least one character, and
    digits only. *)
Definition isdigit (s : string) : bool := PyStr.truthy s && all_digits s.

(** [s.lstrip("-")] *)
Fixpoint lstrip_dash (s : string) : string :=
  match s with
  | EmptyString => EmptyString
  | String c r => if Ascii.eqb c "-" then lstrip_dash r else s
  end.

(** [validate_chat_id] *)
Definition validate_chat_id (v : string) : validated string :=
  if negb (PyStr.truthy v)
  then Invalid (value_error "Telegram chat ID cannot be empty")
  else if negb (PyStr.startswith v "@" || isdigit (lstrip_dash v))
  then Invalid (value_error "Chat ID must be numeric or start with @")
  else Valid v.

(** [validate_retry_attempts] *)
Definition validate_retry_attempts (v : Z) : validated Z :=
  if (v <? 0) || (10 <? v)
  then Invalid (value_error "Retry attempts must be between 0 and 10")
  else Valid v.

(** [k] dashes. *)
Fixpoint dashes (k : nat) : string :=
  match k with
  | O => EmptyString
  | S k => String "-" (dashes k)
  end.

End Config.

(* ===================================================================== *)
(** ** The layout of a message, line by line *)
(* ===================================================================== *)

(** The lines of the documented layout, each on its own, to compare
    [_format_message] with. *)
Module Layout.

Import Telegram.

Definition ticker_line (w : TradingViewWebhook) : string :=
  "<b>" +:+ ticker w +:+ "</b>" +:+
  match interval w with
  | Some i => if PyStr.truthy i then "  (" +:+ i +:+ ")" else ""
  | None => ""
  end.

Definition signal_line (w : TradingViewWebhook) : string :=
  "Signal: <i>" +:+ signal w +:+ "</i>  Price: " +:+ float_str (price w).

Definition time_line (w : TradingViewWebhook) : string := "🕒 " +:+ time w.

Definition chart_lines (w : TradingViewWebhook) : list string :=
  match chart w with
  | Some c =>
      if PyStr.truthy c then ["📈 <a href='" +:+ c +:+ "'>Chart</a>"] else []
  | None => []
  end.

End Layout.

(* ===================================================================== *)
(** ** Concrete inputs *)
(* ===================================================================== *)

(** The payloads used as concrete inputs below: the example of the model's
    schema, and two more with the same (ticker, signal, time) triple. *)
Definition example_payload : TradingViewWebhook :=
  mkWebhook "BTCUSDT" "Buy" 45000 "2025-01-15T10:30:00Z" (Some "1h")
            (Some "https://www.tradingview.com/chart/?symbol=BTCUSDT").

Definition example_repriced : TradingViewWebhook :=
  mkWebhook "BTCUSDT" "Buy" 45123.5 "2025-01-15T10:30:00Z" (Some "4h") None.

Definition example_bare : TradingViewWebhook :=
  mkWebhook "BTCUSDT" "Buy" 1 "2025-01-15T10:30:00Z" None None.

(** A request whose ticker is one space and whose price is 2^-30
    (9.313225746154785e-10 as a JSON number). *)
Definition blank_ticker_tiny_price : Models.RawWebhook :=
  Models.mkRaw (Some " ") (Some "Buy") (Some (1 # 1073741824))
               (Some "2025-01-15T10:30:00Z") None None.

(** The payload of [test_trading_view_webhook_validation]. *)
Definition lowercase_payload : Models.RawWebhook :=
  Models.mkRaw (Some "btcusdt") (Some "buy") (Some 45000.123456789%Q)
               (Some "2025-01-15T10:30:00Z") (Some "1h")
               (Some "https://example.com/chart").

(** The payload of the end-to-end scenario, as it is posted. *)
Definition scenario_payload : Models.RawWebhook :=
  Models.mkRaw (Some "btcusdt") (Some "buy") (Some 45000.123456789%Q)
               (Some "2025-01-15T10:30:00Z") (Some "1h") None.

(** The same payload with the signal spelled as the pattern wants it. *)
Definition scenario_payload_Buy : Models.RawWebhook :=
  Models.mkRaw (Some "btcusdt") (Some "Buy") (Some 45000.123456789%Q)
               (Some "2025-01-15T10:30:00Z") (Some "1h") None.

Definition scenario_text : string :=
  "<b>BTCUSDT</b>  (1h)" +:+ PyStr.newline +:+
  "Signal: <i>Buy</i>  Price: 45000.12345679" +:+ PyStr.newline +:+
  "🕒 2025-01-15T10:30:00Z".

Definition scenario_text_unstyled : string :=
  "BTCUSDT  (1h)" +:+ PyStr.newline +:+
  "Signal: Buy  Price: 45000.12345679" +:+ PyStr.newline +:+
  "🕒 2025-01-15T10:30:00Z".

(** The default settings of [app/core/config.py], with sample secrets. *)
Definition default_settings : Settings :=
  mkSettings "test_secret_key_for_hmac_validation" "@trading_signals" 3 1 2 300.

(** A clock that advances by a millisecond from one reading to the next. *)
Definition sample_clock (n : nat) : Z := 1000 * Z.of_nat n.

Definition ok_response : Telegram.response :=
  Telegram.mkResponse 200 (Some true) Telegram.HeaderAbsent.

Definition server_error : Telegram.response :=
  Telegram.mkResponse 500 None Telegram.HeaderAbsent.

(** A timeout, then a connection error, then success. *)
Definition third_time_lucky (attempt : nat) : Telegram.post_outcome :=
  match attempt with
  | 0%nat => Telegram.TimeoutException
  | 1%nat => Telegram.RequestError
  | _ => Telegram.Responded ok_response
  end.

Definition new_service : Telegram.Service :=
  Telegram.mkService Telegram.fresh 0 [].

(** Two POSTs of the same body, one unsigned and one with a signature. *)
Definition unsigned_request : Api.Request :=
  Api.mkRequest [("Content-Type", "application/json"); ("X-Request-ID", "r-1")]
                (Some "body").

Definition signed_request : Api.Request :=
  Api.mkRequest [("X-Signature", "invalid_signature");
                 ("Content-Type", "application/json"); ("X-Request-ID", "r-1")]
                (Some "body").

(** A parser that reads every body as the payload of the model's schema. *)
Definition sample_json (_ : string) : option (option Models.RawWebhook) :=
  Some (Some (Models.mkRaw (Some "BTCUSDT") (Some "Buy") (Some 45000%Q)
                (Some "2025-01-15T10:30:00Z") (Some "1h") None)).

(** The scenario's payload as the validator stores it when the signal is
    spelled "Buy", and a later alert for the same ticker. *)
Definition scenario_alert : TradingViewWebhook :=
  mkWebhook "BTCUSDT" "Buy" (4500012345679 # 100000000)
            "2025-01-15T10:30:00Z" (Some "1h") None.

Definition later_payload : Models.RawWebhook :=
  Models.mkRaw (Some " ethusdt ") (Some "Sell") (Some 2500.5%Q)
               (Some "2025-01-15T11:00:00Z") None
               (Some "https://example.com/chart").

Definition later_alert : TradingViewWebhook :=
  mkWebhook "ETHUSDT" "Sell" (250050000000 # 100000000)
            "2025-01-15T11:00:00Z" None (Some "https://example.com/chart").

(** Settings with five attempts, and with none. *)
Definition five_attempts : Settings :=
  mkSettings "test_secret_key_for_hmac_validation" "@trading_signals" 5 1 2 300.

Definition no_attempts : Settings :=
  mkSettings "test_secret_key_for_hmac_validation" "@trading_signals" 0 1 2 300.


(** A remote that answers 200 without the [ok] flag. *)
Definition refused : Telegram.response :=
  Telegram.mkResponse 200 (Some false) Telegram.HeaderAbsent.

(** Thirty-one alerts of successive minutes that arrive in one burst: the
    task of alert [i] checks the cache [i] hundredths of a second after
    10:30:00 on 2025-01-15, its service reads that time whenever it looks
    at the clock, and the remote answers 200 at the first attempt. *)
Definition burst_time (i : nat) : string :=
  "2025-01-15T10:" +:+ Telegram.digits_fixed 2 (Z.of_nat i) +:+ ":00Z".

Definition burst_raw (i : nat) : Models.RawWebhook :=
  Models.mkRaw (Some "BTCUSDT") (Some "Buy") (Some 45000%Q)
               (Some (burst_time i)) (Some "1h") None.

Definition burst_alert (i : nat) : TradingViewWebhook :=
  mkWebhook "BTCUSDT" "Buy" (4500000000000 # 100000000) (burst_time i)
            (Some "1h") None.

Definition burst_start : Z := 1736937000000000.

Definition burst_job (i : nat) : Background.job :=
  Background.mkJob ((173693700000 + Z.of_nat i) # 100) (burst_alert i)
    (fun _ => burst_start + 10000 * Z.of_nat i)
    (fun _ => Telegram.Responded ok_response).

Definition burst : list Background.job := map burst_job (seq 0 31).

(** A stand-in for HMAC-SHA256 that is good enough to run the verifier on:
    key and payload behind a fixed prefix. *)
Definition toy_digest (key payload : string) : string :=
  "mac:" +:+ key +:+ "/" +:+ payload.

(* ===================================================================== *)
(** * Properties *)
(* ===================================================================== *)

(** ** Rational comparisons *)

Lemma Qltb_true (x y : Q) : Qltb x y = true <-> (x < y)%Q.
Proof.
  unfold Qltb. rewrite negb_true_iff, <- not_true_iff_false, Qle_bool_iff.
  split; [apply Qnot_le_lt | apply Qlt_not_le].
Qed.

Lemma Qltb_false (x y : Q) : Qltb x y = false <-> (y <= x)%Q.
Proof. unfold Qltb. rewrite negb_false_iff. apply Qle_bool_iff. Qed.

Lemma Qleb_true (x y : Q) : Qleb x y = true <-> (x <= y)%Q.
Proof. apply Qle_bool_iff. Qed.

Lemma Qleb_false (x y : Q) : Qleb x y = false <-> (y < x)%Q.
Proof.
  unfold Qleb. rewrite <- not_true_iff_false, Qle_bool_iff.
  split; [apply Qnot_le_lt | apply Qlt_not_le].
Qed.

(** ** Strings *)

Section PyStrProps.

Import PyStr.

Lemma append_nil_l (x : string) : "" +:+ x = x.
Proof. reflexivity. Qed.

Lemma append_cons (c : ascii) (x y : string) :
  String c x +:+ y = String c (x +:+ y).
Proof. reflexivity. Qed.

Lemma is_space_upper_char (c : ascii) : is_space (upper_char c) = is_space c.
Proof. destruct c as [[] [] [] [] [] [] [] []]; reflexivity. Qed.

Lemma upper_char_idem (c : ascii) : upper_char (upper_char c) = upper_char c.
Proof. destruct c as [[] [] [] [] [] [] [] []]; reflexivity. Qed.

Lemma upper_idem (s : string) : upper (upper s) = upper s.
Proof.
  unfold upper. induction s as [|c s IH]; simpl; [done|].
  by rewrite upper_char_idem, IH.
Qed.

Lemma upper_lstrip (s : string) : upper (lstrip s) = lstrip (upper s).
Proof.
  unfold upper. induction s as [|c s IH]; simpl; [done|].
  rewrite is_space_upper_char. by destruct (is_space c).
Qed.

Lemma map_chars_empty (f : ascii -> ascii) (s : string) :
  map_chars f s = "" <-> s = "".
Proof. destruct s; simpl; split; congruence. Qed.

Lemma upper_rstrip (s : string) : upper (rstrip s) = rstrip (upper s).
Proof.
  unfold upper. induction s as [|c s IH]; simpl; [done|].
  rewrite <- IH, is_space_upper_char.
  destruct (rstrip s) as [|c' r'] eqn:E; simpl; [by destruct (is_space c)|done].
Qed.

Lemma upper_strip (s : string) : upper (strip s) = strip (upper s).
Proof. unfold strip. by rewrite upper_rstrip, upper_lstrip. Qed.

Lemma lstrip_idem (s : string) : lstrip (lstrip s) = lstrip s.
Proof.
  induction s as [|c s IH]; simpl; [done|].
  destruct (is_space c) eqn:E; [done|]. simpl. by rewrite E.
Qed.

(** What [rstrip] leaves starts as the string does, unless nothing is left. *)
Lemma rstrip_cons (c : ascii) (s : string) :
  rstrip (String c s)
  = if is_space c && negb (truthy (rstrip s)) then ""
    else String c (rstrip s).
Proof. simpl. destruct (rstrip s); simpl; by destruct (is_space c). Qed.

Lemma rstrip_idem (s : string) : rstrip (rstrip s) = rstrip s.
Proof.
  induction s as [|c s IH]; [done|].
  rewrite rstrip_cons.
  destruct (is_space c && negb (truthy (rstrip s))) eqn:E; [done|].
  rewrite rstrip_cons, IH. by rewrite E.
Qed.

Lemma lstrip_rstrip (s : string) : lstrip (rstrip s) = rstrip (lstrip s).
Proof.
  induction s as [|c s IH]; [done|].
  rewrite rstrip_cons. cbn [lstrip].
  destruct (is_space c) eqn:Ec; cbn [andb].
  - destruct (rstrip s) as [|c' r'] eqn:Er; cbn [truthy negb].
    + by rewrite <- IH.
    + cbn [lstrip]. rewrite Ec. by rewrite <- IH.
  - rewrite rstrip_cons, Ec. cbn [andb lstrip]. by rewrite Ec.
Qed.

Lemma strip_idem (s : string) : strip (strip s) = strip s.
Proof.
  unfold strip. by rewrite lstrip_rstrip, lstrip_idem, rstrip_idem.
Qed.

(** Lengths in code points: upper-casing keeps them, stripping does not
    add to them. *)
Lemma is_continuation_upper_char (c : ascii) :
  PyLen.is_continuation (upper_char c) = PyLen.is_continuation c.
Proof. destruct c as [[] [] [] [] [] [] [] []]; reflexivity. Qed.

Lemma len_upper (s : string) : PyLen.len (upper s) = PyLen.len s.
Proof.
  unfold upper. induction s as [|c s IH]; [done|].
  cbn [map_chars PyLen.len]. by rewrite is_continuation_upper_char, IH.
Qed.

Lemma len_cons_le (c : ascii) (s : string) :
  (PyLen.len s <= PyLen.len (String c s))%nat.
Proof. cbn [PyLen.len]. destruct (PyLen.is_continuation c); lia. Qed.

Lemma len_lstrip (s : string) : (PyLen.len (lstrip s) <= PyLen.len s)%nat.
Proof.
  induction s as [|c s IH]; [done|]. cbn [lstrip].
  destruct (is_space c); [|done].
  etrans; [apply IH|apply len_cons_le].
Qed.

Lemma len_rstrip (s : string) : (PyLen.len (rstrip s) <= PyLen.len s)%nat.
Proof.
  induction s as [|c s IH]; [done|].
  rewrite rstrip_cons. destruct (_ && _).
  - cbn [PyLen.len]. lia.
  - cbn [PyLen.len]. destruct (PyLen.is_continuation c); lia.
Qed.

Lemma len_strip (s : string) : (PyLen.len (strip s) <= PyLen.len s)%nat.
Proof. unfold strip. etrans; [apply len_rstrip|apply len_lstrip]. Qed.

End PyStrProps.

(** ** The payload validator *)

Section ModelsProps.

Import Models.

Lemma fullmatch_signal_pattern (v : string) :
  fullmatch signal_pattern v = true <-> v = "Buy" \/ v = "Sell".
Proof.
  unfold signal_pattern. cbn [fullmatch]. rewrite orb_true_iff, !String.eqb_eq.
  intuition congruence.
Qed.

(** The signal field accepts exactly the two spellings of the pattern and
    stores them as they are. *)
Lemma signal_field_Valid (o : option string) (s : string) :
  signal_field o = Valid s <-> o = Some s /\ (s = "Buy" \/ s = "Sell").
Proof.
  unfold signal_field. destruct o as [v|]; [|intuition congruence].
  destruct (fullmatch signal_pattern v) eqn:E.
  - apply fullmatch_signal_pattern in E. split.
    + intros [= <-]. destruct E as [-> | ->]; simpl; auto.
    + intros [[= ->] _]. destruct E as [-> | ->]; reflexivity.
  - split; [discriminate|]. intros [[= ->] H].
    apply fullmatch_signal_pattern in H. congruence.
Qed.

Lemma ticker_field_Valid (o : option string) (t : string) :
  ticker_field o = Valid t <->
  exists v, o = Some v /\ (1 <= PyLen.len v <= 20)%nat
            /\ t = PyStr.strip (PyStr.upper v).
Proof.
  unfold ticker_field, validate_ticker. destruct o as [v|].
  - destruct (Nat.ltb_spec (PyLen.len v) 1);
      [|destruct (Nat.ltb_spec 20 (PyLen.len v))].
    + split; [discriminate|]. intros (? & [= <-] & ? & _). lia.
    + split; [discriminate|]. intros (? & [= <-] & ? & _). lia.
    + split.
      * intros [= <-]. exists v. split; [done|]. split; [lia|done].
      * intros (? & [= <-] & _ & ->). done.
  - split; [discriminate|]. intros (? & ? & _). discriminate.
Qed.

Lemma round_half_even_nonneg (x : Q) : (0 <= x)%Q -> 0 <= round_half_even x.
Proof.
  destruct x as [n d]. unfold Qle, round_half_even. simpl. intros Hn.
  assert (0 <= n) by lia.
  assert (0 <= n / Z.pos d) by (apply Z.div_pos; lia).
  destruct (2 * (n mod Z.pos d) ?= Z.pos d); [destruct (Z.even _)| |]; lia.
Qed.

Lemma py_round_nonneg (v : Q) (nd : nat) : (0 <= v)%Q -> (0 <= py_round v nd)%Q.
Proof.
  intros Hv. unfold py_round, Qle. simpl. rewrite Z.mul_1_r.
  apply round_half_even_nonneg.
  apply Qmult_le_0_compat; [done|].
  unfold Qle. simpl. rewrite !Z.mul_1_r. apply Z.pow_nonneg. lia.
Qed.

(** The price field accepts exactly the inputs above zero and stores
    their rounding, which is not below zero. *)
Lemma price_field_Valid (o : option Q) (p : Q) :
  price_field o = Valid p <->
  exists v, o = Some v /\ (0 < v)%Q /\ p = py_round v 8.
Proof.
  unfold price_field, validate_price. destruct o as [v|].
  - destruct (Qltb 0 v) eqn:E1.
    + apply Qltb_true in E1. destruct (Qleb v 0) eqn:E2.
      * apply Qleb_true in E2. exfalso. by apply (Qlt_not_le 0 v).
      * split; [intros [= <-]; eauto|]. by intros (? & [= <-] & _ & ->).
    + apply Qltb_false in E1. split; [discriminate|].
      intros (? & [= <-] & H & _). exfalso. by apply (Qlt_not_le 0 v).
  - split; [discriminate|]. intros (? & ? & _). discriminate.
Qed.

(** What the validator guarantees of a payload it accepts. *)
Lemma validate_inr (raw : RawWebhook) (w : TradingViewWebhook) :
  validate raw = inr w ->
  ticker_field (raw_ticker raw) = Valid (ticker w) /\
  signal_field (raw_signal raw) = Valid (signal w) /\
  price_field (raw_price raw) = Valid (price w) /\
  time_field (raw_time raw) = Valid (time w) /\
  validate_chart_url (raw_chart raw) = Valid (chart w) /\
  interval w = raw_interval raw.
Proof.
  unfold validate.
  destruct (ticker_field _), (signal_field _), (price_field _),
    (time_field _), (validate_chart_url _); try discriminate.
  by intros [= <-].
Qed.

Lemma validate_accepted_invariant (raw : RawWebhook) (w : TradingViewWebhook) :
  validate raw = inr w ->
  (signal w = "Buy" \/ signal w = "Sell") /\
  (0 <= price w)%Q /\
  (exists v, raw_price raw = Some v /\ (0 < v)%Q) /\
  (exists v, raw_ticker raw = Some v /\ (1 <= PyLen.len v <= 20)%nat).
Proof.
  intros H. apply validate_inr in H as (Ht & Hs & Hp & _).
  apply signal_field_Valid in Hs as [_ Hs].
  apply price_field_Valid in Hp as (v & Hv & Hpos & Hp).
  apply ticker_field_Valid in Ht as (t & Ht & Hlen & _).
  split; [done|]. split; [|split; eauto].
  rewrite Hp. apply py_round_nonneg. by apply Qlt_le_weak.
Qed.

Lemma time_field_Valid (o : option string) (t : string) :
  time_field o = Valid t <->
  exists v, o = Some v /\ v <> "" /\ t = PyStr.strip v.
Proof.
  unfold time_field, validate_time. destruct o as [v|].
  - destruct v as [|c v]; simpl.
    + split; [discriminate|]. intros (? & [= <-] & ? & _). done.
    + split; [intros [= <-]; eauto|]. by intros (? & [= <-] & _ & ->).
  - split; [discriminate|]. intros (? & ? & _). discriminate.
Qed.

Lemma validate_chart_url_Valid (o c : option string) :
  validate_chart_url o = Valid c <->
  c = o /\ forall u, o = Some u -> u <> "" ->
           PyStr.startswith u "http://" = true \/
           PyStr.startswith u "https://" = true.
Proof.
  unfold validate_chart_url. destruct o as [u|].
  - destruct u as [|a u]; cbn [PyStr.truthy andb].
    + split; [intros [= <-]; split; [done|]; by intros ? [= <-]|].
      by intros [-> _].
    + destruct (PyStr.startswith (String a u) "http://") eqn:E1; cbn [orb negb].
      * split; [intros [= <-]; split; [done|]; intros ? [= <-] _; auto|].
        by intros [-> _].
      * destruct (PyStr.startswith (String a u) "https://") eqn:E2; cbn [negb].
        -- split; [intros [= <-]; split; [done|]; intros ? [= <-] _; auto|].
           by intros [-> _].
        -- split; [discriminate|]. intros [_ H].
           destruct (H _ eq_refl) as [H'|H']; [done|congruence|congruence].
  - split; [intros [= <-]; split; [done|]; discriminate|]. by intros [-> _].
Qed.

(** The stored ticker is the raw one, of 1 to 20 characters, upper-cased
    and stripped. *)
Lemma validate_inr_ticker (raw : RawWebhook) (w : TradingViewWebhook) :
  validate raw = inr w ->
  exists t, raw_ticker raw = Some t /\ (1 <= PyLen.len t <= 20)%nat /\
            ticker w = PyStr.strip (PyStr.upper t).
Proof.
  intros H. apply validate_inr in H as (Ht & _).
  by apply ticker_field_Valid in Ht.
Qed.

Lemma validate_inr_normal_form (raw : RawWebhook) (w : TradingViewWebhook) :
  validate raw = inr w ->
  PyStr.upper (ticker w) = ticker w /\
  PyStr.strip (ticker w) = ticker w /\
  PyStr.strip (time w) = time w /\
  (forall u, chart w = Some u -> u <> "" ->
     PyStr.startswith u "http://" = true \/ PyStr.startswith u "https://" = true).
Proof.
  intros H. apply validate_inr in H as (Ht & _ & _ & Htm & Hc & _).
  apply ticker_field_Valid in Ht as (t & _ & _ & ->).
  apply time_field_Valid in Htm as (tm & _ & _ & ->).
  apply validate_chart_url_Valid in Hc as [-> Hc].
  split; [by rewrite upper_strip, upper_idem|].
  split; [apply strip_idem|]. split; [apply strip_idem|done].
Qed.

End ModelsProps.

(** C2.  The validator accepts a payload that breaks the invariant: the
    length bound of the ticker and the positivity of the price are checked
    on the raw values, and the stored values are what [strip] and [round]
    make of them afterwards, here an empty ticker and a price of zero. *)
Theorem C2_accepted_payload_breaks_invariant :
  exists w, Models.validate blank_ticker_tiny_price = inr w /\
            ticker w = "" /\ ~ (0 < price w)%Q /\ signal w = "Buy".
Proof.
  eexists. split; [reflexivity|]. simpl.
  split; [reflexivity|]. split; [|reflexivity].
  vm_compute. discriminate.
Qed.

(** C3.  The pattern of the signal field is applied to the raw string, before
    [validate_signal] capitalizes it: only the two exact spellings pass, and
    "buy", "BUY" and "sElL" are rejected, as is the whole payload of the
    model's own test.  Every other value fails as well. *)
Theorem C3_signal_is_matched_before_capitalize :
  (forall v, Models.signal_field (Some v) =
             if String.eqb v "Buy" || String.eqb v "Sell"
             then Models.Valid v
             else Models.Invalid Models.string_pattern_mismatch) /\
  Models.signal_field (Some "buy") = Models.Invalid Models.string_pattern_mismatch /\
  Models.signal_field (Some "BUY") = Models.Invalid Models.string_pattern_mismatch /\
  Models.signal_field (Some "sElL") = Models.Invalid Models.string_pattern_mismatch /\
  Models.validate lowercase_payload = inl [("signal", Models.string_pattern_mismatch)].
Proof.
  split; [|by repeat split].
  intros v. unfold Models.signal_field, Models.signal_pattern.
  cbn [Models.fullmatch].
  rewrite (String.eqb_sym "Buy" v), (String.eqb_sym "Sell" v).
  destruct (String.eqb_spec v "Buy") as [-> | _]; [reflexivity|].
  destruct (String.eqb_spec v "Sell") as [-> | _]; reflexivity.
Qed.

(** ** The idempotency cache *)

Section CacheProps.

Import Cache.

Variable ttl : Z.

(** The key depends on the (ticker, signal, time) triple only. *)
Lemma cache_key_triple (p q : TradingViewWebhook) :
  ticker p = ticker q -> signal p = signal q -> time p = time q ->
  cache_key p = cache_key q.
Proof. unfold cache_key. by intros -> -> ->. Qed.

(** A key that is not recorded is recorded with the current time. *)
Lemma is_duplicate_message_fresh now p (cache : gmap string Q) :
  cache !! cache_key p = None ->
  is_duplicate_message ttl now p cache = (false, <[cache_key p := now]> cache).
Proof. unfold is_duplicate_message. by intros ->. Qed.

(** A stale entry is replaced by the current time. *)
Lemma is_duplicate_message_stale now p ts (cache : gmap string Q) :
  cache !! cache_key p = Some ts ->
  (inject_Z ttl <= now - ts)%Q ->
  is_duplicate_message ttl now p cache = (false, <[cache_key p := now]> cache).
Proof.
  unfold is_duplicate_message. intros -> Hage.
  apply Qltb_false in Hage. rewrite Hage.
  by rewrite insert_delete_eq.
Qed.

(** A live entry is reported and the cache is returned as it was. *)
Lemma is_duplicate_message_live now p ts (cache : gmap string Q) :
  cache !! cache_key p = Some ts ->
  (now - ts < inject_Z ttl)%Q ->
  is_duplicate_message ttl now p cache = (true, cache).
Proof.
  unfold is_duplicate_message. intros -> Hage.
  apply Qltb_true in Hage. by rewrite Hage.
Qed.

(** Whatever the outcome, the other keys are left alone. *)
Lemma is_duplicate_message_other now p k (cache : gmap string Q) :
  k ≠ cache_key p ->
  (is_duplicate_message ttl now p cache).2 !! k = cache !! k.
Proof.
  intros Hk. unfold is_duplicate_message.
  destruct (cache !! cache_key p) as [ts|] eqn:E; simpl.
  - destruct (Qltb _ _); simpl; [done|].
    rewrite lookup_insert_ne, lookup_delete_ne; done.
  - by rewrite lookup_insert_ne.
Qed.

(** What [cleanup_cache] keeps: the entries whose age is at most the TTL. *)
Lemma cleanup_cache_lookup now k ts (cache : gmap string Q) :
  cleanup_cache ttl now cache !! k = Some ts <->
  cache !! k = Some ts /\ (now - ts <= inject_Z ttl)%Q.
Proof.
  unfold cleanup_cache. rewrite map_lookup_filter_Some. simpl.
  rewrite <- Qltb_false. destruct (Qltb _ _); simpl; intuition congruence.
Qed.

(** A signal followed by a colon is not a ticker tail followed by a colon:
    the second letter of the signal is lower case. *)
Lemma signal_is_no_ticker_tail (s r x y : string) :
  s = "Buy" \/ s = "Sell" -> PyStr.upper r = r ->
  s +:+ String ":" x <> r +:+ String ":" y.
Proof.
  intros Hs Hr H. unfold PyStr.upper in Hr. revert Hr.
  destruct r as [|c1 [|c2 r]]; destruct Hs as [-> | ->];
    rewrite ?append_cons, ?append_nil_l in H; try discriminate;
    simplify_eq; intros Hr; simpl in Hr; discriminate.
Qed.

Lemma cache_key_parts (T1 : string) :
  forall T2 S1 S2 t1 t2,
    PyStr.upper T1 = T1 -> PyStr.upper T2 = T2 ->
    S1 = "Buy" \/ S1 = "Sell" -> S2 = "Buy" \/ S2 = "Sell" ->
    T1 +:+ ":" +:+ S1 +:+ ":" +:+ t1 = T2 +:+ ":" +:+ S2 +:+ ":" +:+ t2 ->
    T1 = T2 /\ S1 = S2 /\ t1 = t2.
Proof.
  induction T1 as [|c T1 IH]; intros [|c' T2] S1 S2 t1 t2 H1 H2 V1 V2 H.
  - destruct V1 as [-> | ->], V2 as [-> | ->];
      rewrite ?append_cons, ?append_nil_l in H; try discriminate;
      by simplify_eq.
  - exfalso. rewrite ?append_cons, ?append_nil_l in H.
    injection H as <- H.
    assert (HU : PyStr.upper T2 = T2)
      by (unfold PyStr.upper in *; simpl in H2; by injection H2).
    exact (signal_is_no_ticker_tail _ _ _ _ V1 HU H).
  - exfalso. rewrite ?append_cons, ?append_nil_l in H.
    injection H as -> H. symmetry in H.
    assert (HU : PyStr.upper T1 = T1)
      by (unfold PyStr.upper in *; simpl in H1; by injection H1).
    exact (signal_is_no_ticker_tail _ _ _ _ V2 HU H).
  - rewrite !(append_cons _ _ (":" +:+ _)) in H. injection H as <- H.
    unfold PyStr.upper in H1, H2. simpl in H1, H2.
    injection H1 as _ H1. injection H2 as _ H2.
    destruct (IH T2 S1 S2 t1 t2 H1 H2 V1 V2 H) as (-> & -> & ->). done.
Qed.

(** The keys of two accepted payloads agree only when their triples do. *)
Lemma cache_key_accepted raw1 raw2 (w1 w2 : TradingViewWebhook) :
  Models.validate raw1 = inr w1 -> Models.validate raw2 = inr w2 ->
  cache_key w1 = cache_key w2 ->
  ticker w1 = ticker w2 /\ signal w1 = signal w2 /\ time w1 = time w2.
Proof.
  intros H1 H2.
  pose proof (validate_inr_normal_form _ _ H1) as (U1 & _).
  pose proof (validate_inr_normal_form _ _ H2) as (U2 & _).
  pose proof (validate_accepted_invariant _ _ H1) as (V1 & _).
  pose proof (validate_accepted_invariant _ _ H2) as (V2 & _).
  unfold cache_key. by apply cache_key_parts.
Qed.

(** The answer is true exactly when the key is recorded with an age below
    the TTL. *)
Lemma is_duplicate_message_verdict now p (cache : gmap string Q) :
  (is_duplicate_message ttl now p cache).1 = true <->
  exists ts, cache !! cache_key p = Some ts /\ (now - ts < inject_Z ttl)%Q.
Proof.
  unfold is_duplicate_message.
  destruct (cache !! cache_key p) as [ts|] eqn:E.
  - destruct (Qltb (now - ts) (inject_Z ttl)) eqn:Eage; cbn [fst].
    + apply Qltb_true in Eage. split; [eauto|done].
    + apply Qltb_false in Eage. split; [done|].
      intros (ts' & [= <-] & Hlt). exfalso. by apply (Qlt_not_le _ _ Hlt).
  - cbn [fst]. split; [done|]. by intros (ts' & [=] & _).
Qed.

(** C1.  Check-and-record on the (ticker, signal, time) triple.  Take three
    payloads with the same triple (price, interval and chart are free) and
    a cache in which the triple is not recorded, or recorded with an age
    of at least the TTL.  The first call returns false and records the
    key with the current time [t1]; a second call at a time [t2] less
    than the TTL after [t1] returns true; a third call at a time [t3]
    that is the TTL or more after [t1] returns false again and records
    [t3].  The record made for the triple is seen by that triple only: for
    an accepted payload [q] that differs from the (accepted) first payload
    in ticker, signal or time, the answer after the first call is the
    answer before it, true exactly when the cache received already held
    an entry of [q]'s own key younger than the TTL, and false otherwise. *)
Theorem C1_check_and_record
    (cache : gmap string Q) (p1 p2 p3 : TradingViewWebhook) (t1 t2 t3 : Q) :
  ticker p2 = ticker p1 -> signal p2 = signal p1 -> time p2 = time p1 ->
  ticker p3 = ticker p1 -> signal p3 = signal p1 -> time p3 = time p1 ->
  (cache !! cache_key p1 = None \/
   exists ts, cache !! cache_key p1 = Some ts /\ (inject_Z ttl <= t1 - ts)%Q) ->
  (t2 - t1 < inject_Z ttl)%Q ->
  (inject_Z ttl <= t3 - t1)%Q ->
  let r1 := is_duplicate_message ttl t1 p1 cache in
  let r2 := is_duplicate_message ttl t2 p2 r1.2 in
  let r3 := is_duplicate_message ttl t3 p3 r2.2 in
  r1 = (false, <[cache_key p1 := t1]> cache) /\
  r2 = (true, r1.2) /\
  r3 = (false, <[cache_key p1 := t3]> cache) /\
  (forall raw1 rawq (q : TradingViewWebhook) (tq : Q),
     Models.validate raw1 = inr p1 -> Models.validate rawq = inr q ->
     ~ (ticker q = ticker p1 /\ signal q = signal p1 /\ time q = time p1) ->
     (is_duplicate_message ttl tq q r1.2).1
       = (is_duplicate_message ttl tq q cache).1 /\
     ((is_duplicate_message ttl tq q r1.2).1 = true <->
      exists ts, cache !! cache_key q = Some ts /\ (tq - ts < inject_Z ttl)%Q)).
Proof.
  intros Ht2 Hs2 Htm2 Ht3 Hs3 Htm3 Hfirst Hin Hout r1 r2 r3.
  assert (K2 : cache_key p2 = cache_key p1) by by apply cache_key_triple.
  assert (K3 : cache_key p3 = cache_key p1) by by apply cache_key_triple.
  assert (E1 : r1 = (false, <[cache_key p1 := t1]> cache)).
  { subst r1. destruct Hfirst as [Hnone | (ts & Hts & Hold)].
    - by apply is_duplicate_message_fresh.
    - by eapply is_duplicate_message_stale. }
  assert (E2 : r2 = (true, r1.2)).
  { subst r2. rewrite E1. simpl.
    apply is_duplicate_message_live with (ts := t1); [|done].
    rewrite K2. apply lookup_insert_eq. }
  split; [done|]. split; [done|]. split.
  - subst r3. rewrite E2, E1. simpl.
    rewrite (is_duplicate_message_stale t3 p3 t1); [| |done].
    + by rewrite K3, insert_insert_eq.
    + rewrite K3. apply lookup_insert_eq.
  - intros raw1 rawq q tq V1 Vq Hdiff.
    assert (Kq : cache_key p1 <> cache_key q).
    { intros K. apply Hdiff.
      destruct (cache_key_accepted _ _ _ _ V1 Vq K) as (? & ? & ?). done. }
    assert (Eq : (is_duplicate_message ttl tq q r1.2).1
                 = (is_duplicate_message ttl tq q cache).1).
    { rewrite E1. cbn [snd]. unfold is_duplicate_message.
      rewrite (lookup_insert_ne cache _ _ t1 Kq).
      destruct (cache !! cache_key q); [|done]. by destruct (Qltb _ _). }
    split; [done|]. rewrite Eq. apply is_duplicate_message_verdict.
Qed.

(** C8.  A duplicate hit (an entry for the key whose age is strictly less
    than the TTL) is only reported: the call returns true and the cache it
    leaves is the cache it found, timestamp included. *)
Theorem C8_duplicate_leaves_cache
    (cache : gmap string Q) (p : TradingViewWebhook) (now ts : Q) :
  cache !! cache_key p = Some ts ->
  (now - ts < inject_Z ttl)%Q ->
  is_duplicate_message ttl now p cache = (true, cache) /\
  (is_duplicate_message ttl now p cache).2 !! cache_key p = Some ts.
Proof.
  intros Hk Hage.
  rewrite (is_duplicate_message_live now p ts cache Hk Hage). by split.
Qed.

End CacheProps.

(** The scenario's alert is recorded, submitted again with another price
    99.5 s later and again after 300 s; an alert for another ticker is
    checked in between. *)
Lemma C1_check_and_record_witness :
  let r1 := Cache.is_duplicate_message 300 1000 scenario_alert ∅ in
  let r2 := Cache.is_duplicate_message 300 1299.5 example_repriced r1.2 in
  let r3 := Cache.is_duplicate_message 300 1300 example_bare r2.2 in
  r1 = (false, <[Cache.cache_key scenario_alert := 1000%Q]> ∅) /\
  r2 = (true, r1.2) /\
  r3 = (false, <[Cache.cache_key scenario_alert := 1300%Q]> ∅) /\
  (Cache.is_duplicate_message 300 1100 later_alert r1.2).1
    = (Cache.is_duplicate_message 300 1100 later_alert ∅).1 /\
  ((Cache.is_duplicate_message 300 1100 later_alert r1.2).1 = true <->
   exists ts, (∅ : gmap string Q) !! Cache.cache_key later_alert = Some ts /\
              (1100 - ts < inject_Z 300)%Q).
Proof.
  destruct (C1_check_and_record 300 ∅ scenario_alert example_repriced
              example_bare 1000 1299.5 1300) as (E1 & E2 & E3 & Hq);
    try reflexivity.
  - left. reflexivity.
  - vm_compute. discriminate.
  - split; [exact E1|]. split; [exact E2|]. split; [exact E3|].
    apply (Hq scenario_payload_Buy later_payload later_alert 1100%Q);
      [reflexivity | reflexivity |].
    intros (Ht & _). discriminate Ht.
Defined.

Lemma C8_duplicate_leaves_cache_witness :
  let cache : gmap string Q := <[Cache.cache_key example_payload := 1000%Q]> ∅ in
  Cache.is_duplicate_message 300 1299.5 example_repriced cache = (true, cache) /\
  (Cache.is_duplicate_message 300 1299.5 example_repriced cache).2
    !! Cache.cache_key example_repriced = Some 1000%Q.
Proof.
  apply (C8_duplicate_leaves_cache 300
           (<[Cache.cache_key example_payload := 1000%Q]> ∅)
           example_repriced 1299.5 1000); reflexivity.
Defined.

(** ** The rate-limit gate *)

Section RateLimitProps.

Import Telegram.

(** Inside a window that is still open, a call below the cap only counts. *)
Lemma _check_rate_limit_in_window (now now_after c R : Z) :
  now < R -> c < 30 ->
  _check_rate_limit now now_after (mkRateLimit c (Some R))
  = (None, mkRateLimit (c + 1) (Some R)).
Proof.
  intros Hnow Hc. unfold _check_rate_limit. simpl.
  destruct (Z.leb_spec R now); [lia|]. simpl.
  destruct (Z.leb_spec 30 c); [lia|]. reflexivity.
Qed.

(** A call that finds no window, or a window that is over, opens one. *)
Lemma _check_rate_limit_opens (now now_after : Z) (rl : RateLimit) :
  (_rate_limit_reset_time rl = None \/
   exists R, _rate_limit_reset_time rl = Some R /\ R <= now) ->
  _check_rate_limit now now_after rl
  = (None, mkRateLimit 1 (Some (now + second))).
Proof.
  intros H. unfold _check_rate_limit.
  destruct H as [-> | (R & -> & HR)]; [reflexivity|].
  destruct (Z.leb_spec R now); [reflexivity|lia].
Qed.

(** At the cap inside an open window, the call sleeps to the end of the
    window and starts the count again. *)
Lemma _check_rate_limit_at_cap (now now_after c R : Z) :
  now < R -> 30 <= c ->
  _check_rate_limit now now_after (mkRateLimit c (Some R))
  = (Some (R - now), mkRateLimit 1 (Some (now_after + second))).
Proof.
  intros Hnow Hc. unfold _check_rate_limit. simpl.
  destruct (Z.leb_spec R now); [lia|]. simpl.
  destruct (Z.leb_spec 30 c); [|lia].
  destruct (Z.ltb_spec 0 (R - now)); [reflexivity|lia].
Qed.

Lemma rate_limit_calls_in_window (readings : list (Z * Z)) (c R : Z) :
  Forall (fun r => r.1 < R) readings ->
  c + Z.of_nat (length readings) <= 30 ->
  rate_limit_calls readings (mkRateLimit c (Some R))
  = (replicate (length readings) None,
     mkRateLimit (c + Z.of_nat (length readings)) (Some R)).
Proof.
  revert c. induction readings as [|r rest IH]; intros c Hall Hc.
  - simpl. by rewrite Z.add_0_r.
  - apply Forall_cons in Hall as [Hr Hrest].
    cbn [rate_limit_calls length replicate].
    rewrite _check_rate_limit_in_window by (simpl in Hc; lia).
    cbn [fst snd]. rewrite IH; [|done|simpl in Hc; lia].
    cbn [fst snd]. do 2 f_equal. lia.
Qed.

Lemma rate_limit_calls_app (xs ys : list (Z * Z)) (rl : RateLimit) :
  rate_limit_calls (xs ++ ys) rl
  = let a := rate_limit_calls xs rl in
    let b := rate_limit_calls ys a.2 in
    (a.1 ++ b.1, b.2).
Proof.
  revert rl. induction xs as [|x xs IH]; intros rl.
  - simpl. by destruct (rate_limit_calls ys rl).
  - cbn [rate_limit_calls app]. rewrite IH. reflexivity.
Qed.

(** Thirty-one calls of the gate on one service, the first of which
    opens a window at [now1] and the other thirty of which read a clock
    that is still inside that window: the first thirty return without
    sleeping, and the thirty-first sleeps for what is left of the window,
    a positive duration, after which the count starts again at this call
    in a window opened at the reading taken after the sleep. *)
Lemma rate_limit_calls_thirty_first_waits
    (rl : RateLimit) (now1 after1 now31 after31 : Z) (mid : list (Z * Z)) :
  (_rate_limit_reset_time rl = None \/
   exists R, _rate_limit_reset_time rl = Some R /\ R <= now1) ->
  length mid = 29%nat ->
  Forall (fun r => r.1 < now1 + second) mid ->
  now31 < now1 + second ->
  rate_limit_calls ((now1, after1) :: mid ++ [(now31, after31)]) rl
  = (replicate 30 None ++ [Some (now1 + second - now31)],
     mkRateLimit 1 (Some (after31 + second)))
  /\ 0 < now1 + second - now31.
Proof.
  intros Hopen Hlen Hmid Hlast. split; [|lia].
  cbn [rate_limit_calls]. cbn [fst snd].
  rewrite (_check_rate_limit_opens now1 after1 rl Hopen). cbn [fst snd].
  rewrite rate_limit_calls_app.
  rewrite rate_limit_calls_in_window; [|done|rewrite Hlen; lia].
  rewrite Hlen. cbn [fst snd rate_limit_calls].
  rewrite _check_rate_limit_at_cap by (simpl; lia).
  reflexivity.
Qed.

End RateLimitProps.

(** Thirty-one calls 10 ms apart, the first at t = 5 s. *)
Lemma rate_limit_calls_thirty_first_waits_example :
  Telegram.rate_limit_calls
    ((5000000, 0) :: map (fun i => (5000000 + 10000 * Z.of_nat i, 0)) (seq 1 29)
       ++ [(5300000, 6000050)])
    Telegram.fresh
  = (replicate 30 None ++ [Some (5000000 + Telegram.second - 5300000)],
     Telegram.mkRateLimit 1 (Some (6000050 + Telegram.second)))
  /\ 0 < 5000000 + Telegram.second - 5300000.
Proof.
  apply (rate_limit_calls_thirty_first_waits Telegram.fresh 5000000 0 5300000
           6000050 (map (fun i => (5000000 + 10000 * Z.of_nat i, 0)) (seq 1 29))).
  - left. reflexivity.
  - reflexivity.
  - repeat (constructor; [reflexivity|]). constructor.
  - reflexivity.
Defined.

(** C6.  Thirty-one sends in one second, none of which waits.  The
    thirty-one alerts of [burst] are accepted by the validator and their
    tasks run within the same second (every reading of every clock lies
    in the second that starts at [burst_start]); each task sends through a
    [TelegramService] of its own, whose count starts at zero, so each of
    the thirty-one, the thirty-first included, makes its POST at once: the
    events of every task are that one POST, without a rate-limit sleep,
    and thirty-one messages leave within a single window.  The gate
    itself limits the sends of one service: the same thirty-one sends made
    through a single [TelegramService], 10 ms apart, go through thirty
    times and then sleep the 0.7 s left of the window before the
    thirty-first POST, the count starting again at 1. *)
Theorem C6_thirty_one_sends_none_waits :
  let done := Background.run_tasks default_settings burst ∅ in
  let shared :=
    Delivery.send_all default_settings
      (fun n => burst_start + 10000 * Z.of_nat n)
      (map (fun j => (Background.job_transport j, Background.job_payload j))
           burst)
      new_service in
  length burst = 31%nat /\
  map Models.validate (map burst_raw (seq 0 31))
    = map (fun j => inr (Background.job_payload j)) burst /\
  Forall (fun j => forall n,
            burst_start <= Background.job_clock j n
                        < burst_start + Telegram.second) burst /\
  map Background.result done
    = replicate 31 (Background.Processed ok_response) /\
  map Background.events done = replicate 31 [Telegram.Post 0] /\
  map (fun f => Delivery.rate_limit_sleeps (Background.events f)) done
    = replicate 31 [] /\
  Telegram.trace shared.2
    = replicate 30 (Telegram.Post 0)
      ++ [Telegram.RateLimitSleep (700000 # 1000000); Telegram.Post 0] /\
  Telegram._request_count (Telegram.limiter shared.2) = 1.
Proof.
  intros done shared.
  split; [reflexivity|]. split; [vm_compute; reflexivity|]. split.
  { unfold burst. apply Forall_map, Forall_forall. intros i Hi n.
    apply elem_of_seq in Hi.
    unfold burst_job, burst_start, Telegram.second. cbn [Background.job_clock].
    lia. }
  split; [vm_compute; reflexivity|].
  split; [vm_compute; reflexivity|].
  split; [vm_compute; reflexivity|].
  split; vm_compute; reflexivity.
Qed.

(** ** The retry loop *)

Section SendProps.

Import Telegram.

Variable s : Settings.
Variable clock : nat -> Z.
Variable transport : nat -> post_outcome.

Lemma posts_app (t u : list event) : posts (t ++ u) = posts t ++ posts u.
Proof. apply omap_app. Qed.

Lemma backoffs_app (t u : list event) :
  backoffs (t ++ u) = backoffs t ++ backoffs u.
Proof. apply omap_app. Qed.

Lemma posts_log (e : event) (sv : Service) :
  posts (trace (log e sv))
  = posts (trace sv) ++ match e with Post a => [a] | _ => [] end.
Proof. simpl. rewrite posts_app. by destruct e. Qed.

Lemma backoffs_log (e : event) (sv : Service) :
  backoffs (trace (log e sv))
  = backoffs (trace sv) ++ match e with BackoffSleep d => [d] | _ => [] end.
Proof. simpl. rewrite backoffs_app. by destruct e. Qed.

(** The gate adds no POST and no backoff delay to the trace. *)
Lemma posts_rate_limit_gate (sv : Service) :
  posts (trace (rate_limit_gate clock sv)) = posts (trace sv).
Proof.
  unfold rate_limit_gate. destruct (_check_rate_limit _ _ _).1; simpl.
  - rewrite posts_app. simpl. apply app_nil_r.
  - reflexivity.
Qed.

Lemma backoffs_rate_limit_gate (sv : Service) :
  backoffs (trace (rate_limit_gate clock sv)) = backoffs (trace sv).
Proof.
  unfold rate_limit_gate. destruct (_check_rate_limit _ _ _).1; simpl.
  - rewrite backoffs_app. simpl. apply app_nil_r.
  - reflexivity.
Qed.

(** One attempt: the gate, then the POST. *)
Lemma posts_attempt (a : nat) (sv : Service) :
  posts (trace (log (Post a) (rate_limit_gate clock sv)))
  = posts (trace sv) ++ [a].
Proof. simpl. by rewrite posts_app, posts_rate_limit_gate. Qed.


(** The [try] returns exactly on a successful POST. *)
Lemma except_clauses_Return (a : Z) (o : post_outcome) (r : response) :
  except_clauses s a (try_body s a o) = Return r ->
  o = Responded r /\ succeeds o = true.
Proof.
  unfold except_clauses, try_body, succeeds.
  destruct o as [r'| | |].
  - destruct (status_code r' =? 200).
    + destruct (json_ok r') as [[|]|].
      * by intros [= ->].
      * discriminate.
      * destruct (_ =? _); discriminate.
    + destruct (status_code r' =? 429); [|discriminate].
      destruct (retry_after r');
        [destruct (_ <? _) | destruct (_ <? _) | destruct (_ =? _)];
        discriminate.
  - destruct (_ =? _); discriminate.
  - destruct (_ =? _); discriminate.
  - destruct (_ =? _); discriminate.
Qed.

Lemma except_clauses_success (a : Z) (r : response) :
  status_code r = 200 -> json_ok r = Some true ->
  except_clauses s a (try_body s a (Responded r)) = Return r.
Proof. unfold except_clauses, try_body. by intros -> ->. Qed.

(** A timeout or a connection error before the last attempt is swallowed. *)
Lemma except_clauses_transient (a : Z) (o : post_outcome) :
  is_transient o = true -> a <> tg_retry_attempts s - 1 ->
  except_clauses s a (try_body s a o) = Handled.
Proof.
  intros Ho Ha. apply Z.eqb_neq in Ha.
  destruct o; try discriminate; simpl; by rewrite Ha.
Qed.

(** A status other than 200 and 429 raises, whatever the attempt. *)
Lemma except_clauses_http_error (a : Z) (r : response) :
  status_code r <> 200 -> status_code r <> 429 ->
  except_clauses s a (try_body s a (Responded r))
  = Raise (HttpError (status_code r)).
Proof.
  intros H1 H2. apply Z.eqb_neq in H1, H2.
  unfold except_clauses, try_body. by rewrite H1, H2.
Qed.

(** One iteration that fails with a timeout or a connection error before the
    last attempt: the POST, then the backoff delay, then the next attempt. *)
Lemma attempts_from_transient (k a : nat) (sv : Service) :
  is_transient (transport a) = true ->
  Z.of_nat a < tg_retry_attempts s - 1 ->
  attempts_from s clock transport (S k) a sv
  = attempts_from s clock transport k (S a)
      (log (BackoffSleep (backoff_delay s (Z.of_nat a)))
           (log (Post a) (rate_limit_gate clock sv))).
Proof.
  intros Ht Ha. cbn [attempts_from].
  rewrite (except_clauses_transient _ _ Ht) by lia.
  destruct (Z.ltb_spec (Z.of_nat a) (tg_retry_attempts s - 1)); [done|lia].
Qed.

(** One iteration whose POST succeeds: the loop returns the response. *)
Lemma attempts_from_success (k a : nat) (sv : Service) (r : response) :
  transport a = Responded r ->
  status_code r = 200 -> json_ok r = Some true ->
  attempts_from s clock transport (S k) a sv
  = (inr r, log (Post a) (rate_limit_gate clock sv)).
Proof.
  intros Ho Hst Hok. cbn [attempts_from].
  by rewrite Ho, (except_clauses_success _ _ Hst Hok).
Qed.

(** The loop never POSTs more often than it has iterations. *)
Lemma attempts_from_posts_le (remaining a : nat) (sv : Service) :
  (length (posts (trace (attempts_from s clock transport remaining a sv).2))
   <= length (posts (trace sv)) + remaining)%nat.
Proof.
  revert a sv. induction remaining as [|k IH]; intros a sv.
  - simpl. lia.
  - cbn [attempts_from].
    assert (Hp := posts_attempt a sv).
    set (sv1 := log (Post a) (rate_limit_gate clock sv)) in *.
    assert (Hlen : length (posts (trace sv1)) = S (length (posts (trace sv)))).
    { rewrite Hp, length_app. simpl. lia. }
    destruct (except_clauses _ _ _); cbn [snd].
    + lia.
    + etrans; [apply IH|]. rewrite posts_log, app_nil_r. lia.
    + lia.
    + etrans; [apply IH|].
      destruct (_ <? _); [rewrite posts_log, app_nil_r|]; lia.
Qed.

(** Without a successful POST the loop ends in a [TelegramError]. *)
Lemma attempts_from_raises (remaining a : nat) (sv : Service) :
  (forall i, (a <= i < a + remaining)%nat -> succeeds (transport i) = false) ->
  exists e, (attempts_from s clock transport remaining a sv).1 = inl e.
Proof.
  revert a sv. induction remaining as [|k IH]; intros a sv Hfail.
  - simpl. eauto.
  - cbn [attempts_from].
    destruct (except_clauses _ _ _) as [r|n|e|] eqn:E; cbn [fst].
    + apply except_clauses_Return in E as [_ E].
      rewrite Hfail in E by lia. discriminate.
    + apply IH. intros i Hi. apply Hfail. lia.
    + eauto.
    + apply IH. intros i Hi. apply Hfail. lia.
Qed.

(** C4.  With three attempts configured: when the transport fails with a
    timeout or a connection error on the first two attempts and the third
    POST succeeds, the send returns that response after three POSTs and
    exactly two backoff delays, of [delay * backoff ^ 0] and
    [delay * backoff ^ 1]; when no attempt succeeds, the send ends in a
    [TelegramError] and has made at most three POSTs. *)
Theorem C4_three_attempts (rl : RateLimit) (reads : nat) :
  tg_retry_attempts s = 3 ->
  let out := _send_message_with_retry s clock transport
               (mkService rl reads []) in
  (is_transient (transport 0%nat) = true ->
   is_transient (transport 1%nat) = true ->
   succeeds (transport 2%nat) = true ->
   (exists r, transport 2%nat = Responded r /\ out.1 = inr r) /\
   backoffs (trace out.2)
     = [(tg_retry_delay s * tg_retry_backoff s ^ 0)%Q;
        (tg_retry_delay s * tg_retry_backoff s ^ 1)%Q] /\
   posts (trace out.2) = [0; 1; 2]%nat)
  /\
  ((forall i, (i < 3)%nat -> succeeds (transport i) = false) ->
   (exists e, out.1 = inl e) /\ (length (posts (trace out.2)) <= 3)%nat).
Proof.
  intros Hn out. subst out. unfold _send_message_with_retry. rewrite Hn.
  change (Z.to_nat 3) with 3%nat. split.
  - intros H0 H1 H2.
    destruct (transport 2%nat) as [r| | |] eqn:E2; try discriminate.
    simpl in H2. apply andb_true_iff in H2 as [Hst Hok].
    apply Z.eqb_eq in Hst.
    assert (Hok' : json_ok r = Some true)
      by (destruct (json_ok r) as [[|]|]; congruence).
    rewrite (attempts_from_transient 2 0); [|done|rewrite Hn; lia].
    rewrite (attempts_from_transient 1 1); [|done|rewrite Hn; lia].
    rewrite (attempts_from_success 0 2 _ r E2 Hst Hok').
    cbn [fst snd]. split; [eauto|]. split.
    + rewrite !backoffs_log, !backoffs_rate_limit_gate, !backoffs_log,
        !backoffs_rate_limit_gate, !backoffs_log, !backoffs_rate_limit_gate.
      reflexivity.
    + rewrite !posts_log, !posts_rate_limit_gate, !posts_log,
        !posts_rate_limit_gate, !posts_log, !posts_rate_limit_gate.
      reflexivity.
  - intros Hfail. split.
    + apply attempts_from_raises. intros i Hi. apply Hfail. lia.
    + apply (attempts_from_posts_le 3 0 (mkService rl reads [])).
Qed.

(** C5, as the code has it.  A response whose status is neither 200 nor
    429 (so every non-2xx status other than 429) makes the send raise
    the HTTP error at once, on the last attempt and on every earlier one:
    the POST of that attempt is the last event, without backoff delay and
    without another attempt. *)
Theorem C5_http_error_raises_at_once
    (remaining attempt : nat) (sv : Service) (r : response) :
  transport attempt = Responded r ->
  status_code r <> 200 -> status_code r <> 429 ->
  attempts_from s clock transport (S remaining) attempt sv
  = (inl (HttpError (status_code r)),
     log (Post attempt) (rate_limit_gate clock sv)).
Proof.
  intros Ho H1 H2. cbn [attempts_from].
  by rewrite Ho, except_clauses_http_error.
Qed.

End SendProps.

Lemma C4_three_attempts_witness :
  (let out := Telegram._send_message_with_retry default_settings sample_clock
                third_time_lucky new_service in
   (exists r, third_time_lucky 2%nat = Telegram.Responded r /\ out.1 = inr r) /\
   Telegram.backoffs (Telegram.trace out.2) = [(1 * 2 ^ 0)%Q; (1 * 2 ^ 1)%Q] /\
   Telegram.posts (Telegram.trace out.2) = [0; 1; 2]%nat)
  /\
  (let out := Telegram._send_message_with_retry default_settings sample_clock
                (fun _ => Telegram.TimeoutException) new_service in
   (exists e, out.1 = inl e) /\
   (length (Telegram.posts (Telegram.trace out.2)) <= 3)%nat).
Proof.
  split.
  - exact (proj1 (C4_three_attempts default_settings sample_clock
                    third_time_lucky Telegram.fresh 0 eq_refl)
                 eq_refl eq_refl eq_refl).
  - exact (proj2 (C4_three_attempts default_settings sample_clock
                    (fun _ => Telegram.TimeoutException) Telegram.fresh 0 eq_refl)
                 (fun _ _ => eq_refl)).
Defined.

(** C5, as stated, fails.  With three attempts configured and a server that
    answers HTTP 500, the first attempt (not the last) does not continue
    with a backoff: the send raises the HTTP error after a single POST. *)
Lemma C5_first_attempt_http_500_raises :
  let out := Telegram._send_message_with_retry default_settings sample_clock
               (fun _ => Telegram.Responded server_error) new_service in
  out.1 = inl (Telegram.HttpError 500) /\
  Telegram.posts (Telegram.trace out.2) = [0%nat] /\
  Telegram.backoffs (Telegram.trace out.2) = [].
Proof. by vm_compute. Qed.

Lemma C5_http_error_raises_at_once_witness :
  Telegram.attempts_from default_settings sample_clock
    (fun _ => Telegram.Responded server_error) 3 0 new_service
  = (inl (Telegram.HttpError 500),
     Telegram.log (Telegram.Post 0)
       (Telegram.rate_limit_gate sample_clock new_service)).
Proof.
  apply (C5_http_error_raises_at_once default_settings sample_clock
           (fun _ => Telegram.Responded server_error) 2 0 new_service
           server_error eq_refl); discriminate.
Defined.

(** ** The message formatter *)

Section FormatProps.

Import Telegram Layout.

Lemma append_empty_r (x : string) : x +:+ "" = x.
Proof.
  induction x as [|c x IH]; [reflexivity|].
  change (String c (x +:+ "") = String c x). by rewrite IH.
Qed.

Lemma append_assoc (x y z : string) : (x +:+ y) +:+ z = x +:+ (y +:+ z).
Proof.
  induction x as [|c x IH]; [reflexivity|].
  change (String c ((x +:+ y) +:+ z) = String c (x +:+ (y +:+ z))).
  by rewrite IH.
Qed.

(** The layout: three lines, and a fourth for the chart when there is one;
    the interval, when there is one, closes the first line. *)
Lemma _format_message_layout (w : TradingViewWebhook) :
  _format_message w
  = PyStr.join PyStr.newline
      ([ticker_line w; signal_line w; time_line w] ++ chart_lines w).
Proof.
  unfold _format_message, ticker_line, signal_line, time_line, chart_lines.
  destruct (interval w) as [i|], (chart w) as [c|];
    try destruct (PyStr.truthy i); try destruct (PyStr.truthy c);
    cbn [app]; rewrite ?append_empty_r, ?append_assoc; reflexivity.
Qed.

End FormatProps.

(** C7.  The payload of the end-to-end scenario never reaches the formatter:
    its signal "buy" fails the pattern of the signal field and the validator
    rejects it.  Spelled "Buy", the same payload is accepted and formatted
    to the text of the scenario, bold ticker and italic signal included. *)
Theorem C7_scenario_payload_is_not_formatted :
  Models.validate scenario_payload
    = inl [("signal", Models.string_pattern_mismatch)] /\
  exists w, Models.validate scenario_payload_Buy = inr w /\
            Telegram._format_message w = scenario_text /\
            Telegram.unstyled (Telegram._format_message w)
              = scenario_text_unstyled.
Proof.
  split; [reflexivity|]. eexists. split; [reflexivity|].
  split; reflexivity.
Qed.

(** ** The request handler *)

Section ApiProps.

Import Api.

Variable json : string -> option (option Models.RawWebhook).

Lemma find_filter {A} (f g : A -> bool) (l : list A) :
  (forall x, f x = true -> g x = true) ->
  List.find f (List.filter g l) = List.find f l.
Proof.
  intros Hfg. induction l as [|x l IH]; [reflexivity|].
  simpl. destruct (g x) eqn:Eg; simpl.
  - by rewrite IH.
  - destruct (f x) eqn:Ef; [|done].
    apply Hfg in Ef. congruence.
Qed.

(** Reading any header other than [X-Signature] does not see it. *)
Lemma headers_get_without_signature (name default : string) hs :
  PyStr.lower name <> PyStr.lower "X-Signature" ->
  headers_get name default (without_signature hs) = headers_get name default hs.
Proof.
  intros Hname. unfold headers_get, without_signature.
  rewrite find_filter; [done|].
  intros [k v]. unfold same_header. simpl.
  intros Hk%String.eqb_eq. apply negb_true_iff, String.eqb_neq. congruence.
Qed.

(** The handler reads the request's body; of the headers it only logs
    whether a signature came with them. *)
Lemma receive_tradingview_webhook_body rid now cache (r1 r2 : Request) :
  body r1 = body r2 ->
  response (receive_tradingview_webhook json rid now cache r1)
    = response (receive_tradingview_webhook json rid now cache r2) /\
  background_tasks (receive_tradingview_webhook json rid now cache r1)
    = background_tasks (receive_tradingview_webhook json rid now cache r2).
Proof.
  intros Hb. unfold receive_tradingview_webhook. rewrite Hb.
  destruct (body r2) as [b|]; [|done].
  destruct (json b) as [[raw|]|]; [|done|done].
  destruct (Models.validate raw); done.
Qed.

(** C9.  Two requests with the same body and the same headers apart from
    [X-Signature] (present or not, whatever its value) get the same
    response from POST /webhook, status and body fields, and schedule
    the same background tasks. *)
Theorem C9_response_ignores_signature
    (uuid4 : string) (now : Z) (cache : gmap string Q) (r1 r2 : Request) :
  body r1 = body r2 ->
  without_signature (headers r1) = without_signature (headers r2) ->
  response (post_webhook json uuid4 now cache r1)
    = response (post_webhook json uuid4 now cache r2) /\
  background_tasks (post_webhook json uuid4 now cache r1)
    = background_tasks (post_webhook json uuid4 now cache r2).
Proof.
  intros Hb Hh. unfold post_webhook.
  assert (Hid : headers_get "X-Request-ID" uuid4 (headers r1)
                = headers_get "X-Request-ID" uuid4 (headers r2)).
  { rewrite <- (headers_get_without_signature _ _ (headers r1)) by done.
    rewrite <- (headers_get_without_signature _ _ (headers r2)) by done.
    by rewrite Hh. }
  rewrite Hid. by apply receive_tradingview_webhook_body.
Qed.

End ApiProps.

(** ** The signature verifier *)

Section SecurityProps.

Import Security.

Variable hexdigest : string -> string -> string.

Lemma truthy_nonempty (x : string) : PyStr.truthy x = true <-> x <> "".
Proof. destruct x; simpl; split; congruence. Qed.

Lemma try_block_cases (secret payload signature : string) :
  try_block hexdigest secret payload signature = inr true \/
  (exists e, try_block hexdigest secret payload signature = inl e).
Proof.
  unfold try_block.
  destruct (compare_digest _ _) as [e|[|]]; simpl; eauto.
Qed.

Lemma try_block_true (secret payload signature : string) :
  try_block hexdigest secret payload signature = inr true <->
  PyStr.isascii signature = true /\ hexdigest secret payload = signature.
Proof.
  unfold try_block, compare_digest.
  destruct (PyStr.isascii (hexdigest secret payload)) eqn:Ea,
           (PyStr.isascii signature) eqn:Eb; simpl.
  - destruct (String.eqb_spec (hexdigest secret payload) signature);
      simpl; intuition congruence.
  - intuition congruence.
  - split; [discriminate|]. intros [_ H]. congruence.
  - intuition congruence.
Qed.

(** C10.  The verifier has two outcomes, the value [True] and a
    [SignatureError]; [False] is not one of them.  It returns [True]
    exactly when the signature is not empty, the secret is configured and
    the signature is the hexadecimal digest (and, as [compare_digest]
    wants of a [str], ASCII). *)
Theorem C10_verify_never_returns_false
    (settings : Settings) (payload signature : string) :
  verify_webhook_signature hexdigest settings payload signature <> inr false /\
  (verify_webhook_signature hexdigest settings payload signature = inr true \/
   exists e, verify_webhook_signature hexdigest settings payload signature
             = inl e) /\
  (verify_webhook_signature hexdigest settings payload signature = inr true <->
   signature <> "" /\ tv_webhook_secret settings <> "" /\
   PyStr.isascii signature = true /\
   hexdigest (tv_webhook_secret settings) payload = signature).
Proof.
  unfold verify_webhook_signature.
  rewrite <- !truthy_nonempty, <- try_block_true.
  destruct (PyStr.truthy signature); simpl;
    [|split; [discriminate|]; split; [eauto|]; intuition discriminate].
  destruct (PyStr.truthy (tv_webhook_secret settings)); simpl;
    [|split; [discriminate|]; split; [eauto|]; intuition discriminate].
  destruct (try_block_cases (tv_webhook_secret settings) payload signature)
    as [-> | [e ->]].
  - split; [discriminate|]. split; [eauto|]. intuition.
  - destruct e as [e|]; (split; [discriminate|]); (split; [eauto|]);
      intuition discriminate.
Qed.

End SecurityProps.

Lemma C9_response_ignores_signature_witness :
  Api.response (Api.post_webhook sample_json "u-1" 0 ∅ unsigned_request)
    = Api.response (Api.post_webhook sample_json "u-1" 0 ∅ signed_request) /\
  Api.background_tasks (Api.post_webhook sample_json "u-1" 0 ∅ unsigned_request)
    = Api.background_tasks (Api.post_webhook sample_json "u-1" 0 ∅ signed_request).
Proof.
  apply (C9_response_ignores_signature sample_json "u-1" 0 ∅
           unsigned_request signed_request); reflexivity.
Defined.

(* ===================================================================== *)
(** * Further properties *)
(* ===================================================================== *)

(** ** The payload validator, further *)

Section ModelsMore.

Import Models.

(** Normalising a ticker twice is normalising it once. *)
Theorem validate_ticker_idempotent (v : string) :
  validate_ticker (validate_ticker v) = validate_ticker v.
Proof.
  unfold validate_ticker.
  by rewrite upper_strip, upper_idem, strip_idem.
Qed.


(** What is stored of an accepted payload: a ticker without lower-case
    ASCII letters and without surrounding whitespace, which has at most 20
    characters when the ticker received is ASCII (upper-casing other text
    can lengthen it); a time without surrounding whitespace; a price that
    is not below zero; and a chart that is absent, empty or an http(s)
    address. *)
Theorem accepted_payload_normal_form (raw : RawWebhook) (w : TradingViewWebhook) :
  validate raw = inr w ->
  PyStr.upper (ticker w) = ticker w /\
  PyStr.strip (ticker w) = ticker w /\
  (forall t, raw_ticker raw = Some t -> PyStr.isascii t = true ->
     (PyLen.len (ticker w) <= 20)%nat) /\
  PyStr.strip (time w) = time w /\
  (0 <= price w)%Q /\
  (forall u, chart w = Some u -> u <> "" ->
     PyStr.startswith u "http://" = true \/ PyStr.startswith u "https://" = true).
Proof.
  intros H.
  pose proof (validate_inr_normal_form raw w H) as (Hup & Hst & Htm & Hc).
  pose proof (validate_accepted_invariant raw w H) as (_ & Hp & _).
  pose proof (validate_inr_ticker raw w H) as (t & Ht & Hlen & Hw).
  repeat split; try done.
  intros t' Ht' _. rewrite Hw.
  etrans; [apply len_strip|]. rewrite len_upper. lia.
Qed.

Lemma round_half_even_whole (k : Z) (d : positive) :
  round_half_even (Qmake (k * Z.pos d) d) = k.
Proof.
  unfold round_half_even. cbn [Qnum Qden].
  rewrite Z.div_mul, Z.mod_mul by lia. simpl. reflexivity.
Qed.

Lemma py_round_8_idem (v : Q) : py_round (py_round v 8) 8 = py_round v 8.
Proof.
  unfold py_round at 1 3.
  change (10 ^ Z.of_nat 8) with 100000000.
  change (Z.to_pos 100000000) with 100000000%positive.
  f_equal.
  set (k := round_half_even (v * inject_Z 100000000)).
  unfold py_round. 
  change (10 ^ Z.of_nat 8) with 100000000.
  change (Z.to_pos 100000000) with 100000000%positive.
  fold k.
  change ((k # 100000000) * inject_Z 100000000)%Q
    with (Qmake (k * 100000000) (100000000 * 1)).
  change (100000000 * 1)%positive with 100000000%positive.
  apply (round_half_even_whole k 100000000).
Qed.

(** Validation is a normal form: an accepted payload that kept a ticker of
    1 to 20 characters (stripping can empty it, and upper-casing text that
    is not ASCII can lengthen it), a price above zero and a time is
    accepted again, field for field as it is, when it is validated from
    its own fields. *)
Theorem revalidation_is_identity (raw : RawWebhook) (w : TradingViewWebhook) :
  validate raw = inr w ->
  (1 <= PyLen.len (ticker w) <= 20)%nat -> (0 < price w)%Q -> time w <> "" ->
  validate (Revalidate.model_dump w) = inr w.
Proof.
  intros H Ht0 Hp0 Htm0.
  pose proof (validate_inr_normal_form raw w H) as (Hup & Hst & Htm & _).
  apply validate_inr in H as (_ & Hs & Hp & _ & Hc & _).
  apply signal_field_Valid in Hs as [_ Hs].
  apply price_field_Valid in Hp as (v & _ & _ & Hp).
  apply validate_chart_url_Valid in Hc as [Hc1 Hc2].
  assert (Et : ticker_field (Some (ticker w)) = Valid (ticker w)).
  { apply ticker_field_Valid. exists (ticker w). split; [done|].
    split; [done|by rewrite Hup, Hst]. }
  assert (Es : signal_field (Some (signal w)) = Valid (signal w))
    by (by apply signal_field_Valid).
  assert (Ep : price_field (Some (price w)) = Valid (price w)).
  { apply price_field_Valid. exists (price w). split; [done|]. split; [done|].
    rewrite Hp. symmetry. apply py_round_8_idem. }
  assert (Etm : time_field (Some (time w)) = Valid (time w)).
  { apply time_field_Valid. exists (time w). by rewrite Htm. }
  assert (Ec : validate_chart_url (chart w) = Valid (chart w)).
  { apply validate_chart_url_Valid. split; [done|].
    intros u Hu. apply Hc2. by rewrite <- Hc1. }
  unfold validate, Revalidate.model_dump. cbn [raw_ticker raw_signal raw_price
    raw_time raw_chart raw_interval].
  rewrite Et, Es, Ep, Etm, Ec. by destruct w.
Qed.

End ModelsMore.

(** ** The idempotency cache, further *)

Section CacheMore.

Import Cache.

Variable ttl : Z.

(** Two accepted payloads have the same cache key exactly when they have
    the same ticker, signal and time: the colons of the key cannot shift. *)
Theorem cache_key_injective raw1 raw2 (w1 w2 : TradingViewWebhook) :
  Models.validate raw1 = inr w1 -> Models.validate raw2 = inr w2 ->
  cache_key w1 = cache_key w2 <->
  ticker w1 = ticker w2 /\ signal w1 = signal w2 /\ time w1 = time w2.
Proof.
  intros H1 H2. split; [|intros (? & ? & ?); by apply cache_key_triple].
  pose proof (validate_inr_normal_form _ _ H1) as (U1 & _).
  pose proof (validate_inr_normal_form _ _ H2) as (U2 & _).
  pose proof (validate_accepted_invariant _ _ H1) as (V1 & _).
  pose proof (validate_accepted_invariant _ _ H2) as (V2 & _).
  unfold cache_key. by apply cache_key_parts.
Qed.

(** The cache grows by one entry for a key it does not hold and keeps its
    size otherwise. *)
Theorem is_duplicate_message_size now p (cache : gmap string Q) :
  size (is_duplicate_message ttl now p cache).2
  = match cache !! cache_key p with
    | Some _ => size cache
    | None => S (size cache)
    end.
Proof.
  unfold is_duplicate_message.
  destruct (cache !! cache_key p) as [ts|] eqn:E; cbn [snd].
  - destruct (Qltb _ _); cbn [snd]; [done|].
    rewrite insert_delete_eq. apply map_size_insert_Some. by rewrite E.
  - by apply map_size_insert_None.
Qed.

(** A check for one key does not change the answer for another key. *)
Theorem is_duplicate_message_independent now now' p q (cache : gmap string Q) :
  cache_key q <> cache_key p ->
  (is_duplicate_message ttl now' q (is_duplicate_message ttl now p cache).2).1
  = (is_duplicate_message ttl now' q cache).1.
Proof.
  intros Hk. unfold is_duplicate_message at 1 3.
  rewrite (is_duplicate_message_other ttl now p _ cache Hk).
  destruct (cache !! cache_key q); [|done]. by destruct (Qltb _ _).
Qed.

(** A cleanup never adds or changes an entry, and after a cleanup at an
    earlier time a cleanup at a later time leaves what it would have left
    alone. *)
Theorem cleanup_cache_compose (c1 c2 : Q) (cache : gmap string Q) :
  (c1 <= c2)%Q ->
  cleanup_cache ttl c1 cache ⊆ cache /\
  cleanup_cache ttl c2 (cleanup_cache ttl c1 cache) = cleanup_cache ttl c2 cache.
Proof.
  intros Hc. split; [apply map_filter_subseteq|].
  apply map_eq. intros k. apply option_eq. intros ts.
  rewrite !cleanup_cache_lookup. split; [tauto|].
  intros [Hk Hage]. repeat split; [done| |done]. lra.
Qed.

(** A cleanup at an earlier time does not change what a later check
    answers, nor the timestamp it leaves for the key. *)
Theorem cleanup_cache_keeps_verdict (c now : Q) p (cache : gmap string Q) :
  (c <= now)%Q ->
  (is_duplicate_message ttl now p (cleanup_cache ttl c cache)).1
    = (is_duplicate_message ttl now p cache).1 /\
  (is_duplicate_message ttl now p (cleanup_cache ttl c cache)).2 !! cache_key p
    = (is_duplicate_message ttl now p cache).2 !! cache_key p.
Proof.
  intros Hc. unfold is_duplicate_message.
  destruct (cache !! cache_key p) as [ts|] eqn:E.
  - destruct (cleanup_cache ttl c cache !! cache_key p) as [ts'|] eqn:E'.
    + apply cleanup_cache_lookup in E' as [E' Hage].
      assert (ts' = ts) as -> by congruence.
      destruct (Qltb _ _); cbn [fst snd]; [|by rewrite !lookup_insert_eq].
      split; [done|]. rewrite E. by apply cleanup_cache_lookup.
    + assert (Hold : (inject_Z ttl < c - ts)%Q).
      { destruct (Qlt_le_dec (inject_Z ttl) (c - ts)) as [Hgt|Hle]; [done|].
        assert (cleanup_cache ttl c cache !! cache_key p = Some ts)
          by (by apply cleanup_cache_lookup). congruence. }
      assert (Hstale : Qltb (now - ts) (inject_Z ttl) = false)
        by (apply Qltb_false; lra).
      rewrite Hstale. cbn [fst snd]. by rewrite !lookup_insert_eq.
  - assert (E' : cleanup_cache ttl c cache !! cache_key p = None).
    { destruct (cleanup_cache ttl c cache !! cache_key p) eqn:E'; [|done].
      apply cleanup_cache_lookup in E' as [E' _]. congruence. }
    rewrite E'. cbn [fst snd]. by rewrite !lookup_insert_eq.
Qed.

(** An entry that is exactly as old as the TTL is expired for the check
    (which then refreshes it) and still kept by the cleanup. *)
Theorem entry_of_age_ttl (now ts : Q) p (cache : gmap string Q) :
  cache !! cache_key p = Some ts ->
  (now - ts == inject_Z ttl)%Q ->
  is_duplicate_message ttl now p cache = (false, <[cache_key p := now]> cache) /\
  cleanup_cache ttl now cache !! cache_key p = Some ts.
Proof.
  intros Hk Hage. split.
  - apply (is_duplicate_message_stale ttl now p ts cache Hk). lra.
  - apply cleanup_cache_lookup. split; [done|lra].
Qed.

End CacheMore.

Lemma accepted_payload_normal_form_witness :
  PyStr.upper (ticker later_alert) = ticker later_alert /\
  PyStr.strip (ticker later_alert) = ticker later_alert /\
  (forall t, Models.raw_ticker later_payload = Some t -> PyStr.isascii t = true ->
     (PyLen.len (ticker later_alert) <= 20)%nat) /\
  PyStr.strip (time later_alert) = time later_alert /\
  (0 <= price later_alert)%Q /\
  (forall u, chart later_alert = Some u -> u <> "" ->
     PyStr.startswith u "http://" = true \/ PyStr.startswith u "https://" = true).
Proof.
  apply (accepted_payload_normal_form later_payload later_alert). reflexivity.
Defined.

Lemma revalidation_is_identity_witness :
  Models.validate (Revalidate.model_dump later_alert) = inr later_alert.
Proof.
  apply (revalidation_is_identity later_payload later_alert);
    [reflexivity | vm_compute; lia | reflexivity | discriminate].
Defined.

Lemma cache_key_injective_witness :
  Cache.cache_key scenario_alert = Cache.cache_key later_alert <->
  ticker scenario_alert = ticker later_alert /\
  signal scenario_alert = signal later_alert /\
  time scenario_alert = time later_alert.
Proof.
  apply (cache_key_injective scenario_payload_Buy later_payload); reflexivity.
Defined.

Lemma is_duplicate_message_independent_witness :
  (Cache.is_duplicate_message 300 1100 later_alert
     (Cache.is_duplicate_message 300 1000 scenario_alert ∅).2).1
  = (Cache.is_duplicate_message 300 1100 later_alert ∅).1.
Proof.
  apply (is_duplicate_message_independent 300 1000 1100 scenario_alert
           later_alert ∅).
  discriminate.
Defined.

Lemma cleanup_cache_compose_witness :
  let cache : gmap string Q :=
    <[Cache.cache_key scenario_alert := 1000%Q]>
      (<[Cache.cache_key later_alert := 1250%Q]> ∅) in
  Cache.cleanup_cache 300 1400 cache ⊆ cache /\
  Cache.cleanup_cache 300 1500 (Cache.cleanup_cache 300 1400 cache)
  = Cache.cleanup_cache 300 1500 cache.
Proof.
  apply (cleanup_cache_compose 300 1400 1500). vm_compute. discriminate.
Defined.

Lemma cleanup_cache_keeps_verdict_witness :
  let cache : gmap string Q := <[Cache.cache_key scenario_alert := 1000%Q]> ∅ in
  (Cache.is_duplicate_message 300 1500 scenario_alert
     (Cache.cleanup_cache 300 1400 cache)).1
    = (Cache.is_duplicate_message 300 1500 scenario_alert cache).1 /\
  (Cache.is_duplicate_message 300 1500 scenario_alert
     (Cache.cleanup_cache 300 1400 cache)).2 !! Cache.cache_key scenario_alert
    = (Cache.is_duplicate_message 300 1500 scenario_alert cache).2
        !! Cache.cache_key scenario_alert.
Proof.
  apply (cleanup_cache_keeps_verdict 300 1400 1500). vm_compute. discriminate.
Defined.

Lemma entry_of_age_ttl_witness :
  let cache : gmap string Q := <[Cache.cache_key scenario_alert := 1000%Q]> ∅ in
  Cache.is_duplicate_message 300 1300 scenario_alert cache
    = (false, <[Cache.cache_key scenario_alert := 1300%Q]> cache) /\
  Cache.cleanup_cache 300 1300 cache !! Cache.cache_key scenario_alert
    = Some 1000%Q.
Proof.
  apply (entry_of_age_ttl 300 1300 1000 scenario_alert); reflexivity.
Defined.

(** ** The rate-limit gate, further *)

Section RateLimitMore.

Import Telegram Runs.

Lemma _check_rate_limit_bounds (now now_after : Z) (rl : RateLimit) :
  0 <= _request_count rl <= 30 ->
  1 <= _request_count (_check_rate_limit now now_after rl).2 <= 30 /\
  is_Some (_rate_limit_reset_time (_check_rate_limit now now_after rl).2).
Proof.
  intros Hc. unfold _check_rate_limit.
  destruct rl as [c [R|]]; cbn [_request_count _rate_limit_reset_time] in *.
  - destruct (Z.leb_spec R now); cbn [_request_count _rate_limit_reset_time].
    + simpl. split; [lia|eauto].
    + destruct (Z.leb_spec 30 c).
      * destruct (Z.ltb_spec 0 (R - now)); [|lia].
        cbn [snd _request_count _rate_limit_reset_time]. split; [lia|eauto].
      * cbn [snd _request_count _rate_limit_reset_time]. split; [lia|eauto].
  - simpl. split; [lia|eauto].
Qed.

(** Whatever the clock reads, forwards or backwards, the counter of a
    service stays between 1 and 30 once the gate has been passed, and a
    window is open. *)
Theorem rate_limit_counter_bounded (readings : list (Z * Z)) (rl : RateLimit) :
  0 <= _request_count rl <= 30 -> readings <> [] ->
  1 <= _request_count (rate_limit_calls readings rl).2 <= 30 /\
  is_Some (_rate_limit_reset_time (rate_limit_calls readings rl).2).
Proof.
  revert rl. induction readings as [|r rest IH]; intros rl Hc Hne; [done|].
  cbn [rate_limit_calls snd].
  pose proof (_check_rate_limit_bounds r.1 r.2 rl Hc) as [Hb Hs].
  destruct rest as [|r' rest'] eqn:E; [done|].
  rewrite <- E in *. apply IH; [lia|by rewrite E].
Qed.

Lemma _check_rate_limit_sleep (t now now_after : Z) (rl : RateLimit) :
  window_within t rl -> t <= now -> now <= now_after ->
  (forall d, (_check_rate_limit now now_after rl).1 = Some d -> 0 < d <= second) /\
  window_within now_after (_check_rate_limit now now_after rl).2.
Proof.
  unfold window_within, _check_rate_limit. intros Hw Ht Ha.
  destruct rl as [c [R|]]; cbn [_request_count _rate_limit_reset_time] in *.
  - destruct (Z.leb_spec R now); cbn [_request_count _rate_limit_reset_time].
    + simpl. split; [discriminate|lia].
    + destruct (Z.leb_spec 30 c).
      * destruct (Z.ltb_spec 0 (R - now)); [|lia].
        cbn [fst snd _rate_limit_reset_time]. split; [|lia].
        intros d [= <-]. lia.
      * cbn [fst snd _rate_limit_reset_time]. split; [discriminate|lia].
  - simpl. split; [discriminate|lia].
Qed.

(** With a clock that does not go backwards, every wait of the gate is
    longer than nothing and no longer than a second. *)
Theorem rate_limit_sleep_bounds (t : Z) (readings : list (Z * Z)) (rl : RateLimit) :
  chronological t readings ->
  (forall R, _rate_limit_reset_time rl = Some R -> R <= t + second) ->
  Forall (fun o => forall d, o = Some d -> 0 < d <= second)
         (rate_limit_calls readings rl).1.
Proof.
  intros Hch Hw.
  assert (Hw' : window_within t rl).
  { unfold window_within. destruct (_rate_limit_reset_time rl); [auto|done]. }
  clear Hw. revert t rl Hch Hw'.
  induction readings as [|r rest IH]; intros t rl Hch Hw; [constructor|].
  destruct Hch as (Ht & Ha & Hrest).
  destruct (_check_rate_limit_sleep t r.1 r.2 rl Hw Ht Ha) as [Hd Hw'].
  cbn [rate_limit_calls fst]. constructor; [exact Hd|].
  by apply (IH r.2).
Qed.

End RateLimitMore.

Lemma rate_limit_counter_bounded_witness :
  1 <= Telegram._request_count
         (Telegram.rate_limit_calls [(5000000, 0); (4000000, 0); (9000000, 0)]
            Telegram.fresh).2 <= 30 /\
  is_Some (Telegram._rate_limit_reset_time
             (Telegram.rate_limit_calls [(5000000, 0); (4000000, 0); (9000000, 0)]
                Telegram.fresh).2).
Proof.
  apply (rate_limit_counter_bounded [(5000000, 0); (4000000, 0); (9000000, 0)]
           Telegram.fresh); [simpl; lia | discriminate].
Defined.

Lemma rate_limit_sleep_bounds_witness :
  Forall (fun o => forall d, o = Some d -> 0 < d <= Telegram.second)
         (Telegram.rate_limit_calls [(5000000, 5000000); (5400000, 6000100)]
            (Telegram.mkRateLimit 30 (Some 6000000))).1.
Proof.
  apply (rate_limit_sleep_bounds 5000000
           [(5000000, 5000000); (5400000, 6000100)]
           (Telegram.mkRateLimit 30 (Some 6000000))).
  - simpl. lia.
  - intros R [= <-]. reflexivity.
Defined.

(** ** The retry loop, further *)

Section SendMore.

Import Telegram Runs Delivery.

Variable s : Settings.
Variable clock : nat -> Z.
Variable transport : nat -> post_outcome.


Lemma rate_limit_sleeps_log (e : event) (sv : Service) :
  rate_limit_sleeps (trace (log e sv))
  = rate_limit_sleeps (trace sv)
    ++ match e with RateLimitSleep d => [d] | _ => [] end.
Proof.
  simpl. unfold rate_limit_sleeps. rewrite omap_app. by destruct e.
Qed.


(** Below the cap the gate lets the call through without a wait. *)
Lemma rate_limit_gate_below_cap (sv : Service) :
  _request_count (limiter sv) < 30 ->
  trace (rate_limit_gate clock sv) = trace sv /\
  _request_count (limiter (rate_limit_gate clock sv))
    <= Z.max 0 (_request_count (limiter sv)) + 1.
Proof.
  intros Hc. unfold rate_limit_gate, _check_rate_limit.
  destruct (limiter sv) as [c [R|]]; cbn [_request_count _rate_limit_reset_time] in *.
  - destruct (Z.leb_spec R (clock (clock_reads sv)));
      cbn [_request_count _rate_limit_reset_time].
    + simpl. split; [done|lia].
    + destruct (Z.leb_spec 30 c); [lia|]. simpl. split; [done|lia].
  - simpl. split; [done|lia].
Qed.

(** Configured for no attempt at all, the client fails without a POST. *)
Theorem no_attempts_no_post (sv : Service) :
  tg_retry_attempts s <= 0 ->
  _send_message_with_retry s clock transport sv
  = (inl (FailedAfter (tg_retry_attempts s)), sv).
Proof.
  intros Hn. unfold _send_message_with_retry.
  replace (Z.to_nat (tg_retry_attempts s)) with 0%nat by lia. reflexivity.
Qed.

Lemma attempts_from_posts_seq (remaining a : nat) (sv : Service) :
  exists k, (k <= remaining)%nat /\ (0 < remaining -> 0 < k)%nat /\
    posts (trace (attempts_from s clock transport remaining a sv).2)
    = posts (trace sv) ++ seq a k.
Proof.
  revert a sv. induction remaining as [|rem IH]; intros a sv.
  - exists 0%nat. simpl. rewrite app_nil_r. repeat split; lia.
  - cbn [attempts_from].
    assert (Hp := posts_attempt clock a sv).
    set (sv1 := log (Post a) (rate_limit_gate clock sv)) in *.
    destruct (except_clauses _ _ _); cbn [snd].
    + exists 1%nat. split; [lia|]. split; [lia|]. exact Hp.
    + destruct (IH (S a) (log (RetryAfterSleep retry_after_s) sv1))
        as (k & Hk & _ & ->).
      exists (S k). rewrite posts_log, app_nil_r, Hp, <- app_assoc.
      split; [lia|]. split; [lia|]. reflexivity.
    + exists 1%nat. split; [lia|]. split; [lia|]. exact Hp.
    + match goal with |- context [attempts_from _ _ _ rem (S a) ?x] =>
        destruct (IH (S a) x) as (k & Hk & _ & ->);
        assert (Hx : posts (trace x) = posts (trace sv1))
      end.
      { destruct (_ <? _); [by rewrite posts_log, app_nil_r|done]. }
      exists (S k). rewrite Hx, Hp, <- app_assoc.
      split; [lia|]. split; [lia|]. reflexivity.
Qed.

(** The POSTs of a send are the attempts 0, 1, 2, ... without a gap, and
    there are no more of them than attempts configured. *)
Theorem posts_are_consecutive (sv : Service) :
  exists k, (k <= Z.to_nat (tg_retry_attempts s))%nat /\
    posts (trace (_send_message_with_retry s clock transport sv).2)
    = posts (trace sv) ++ seq 0 k.
Proof.
  destruct (attempts_from_posts_seq (Z.to_nat (tg_retry_attempts s)) 0 sv)
    as (k & Hk & _ & Hp).
  exists k. by split.
Qed.

Lemma attempts_from_returns (remaining a : nat) (sv : Service) (r : response) :
  (attempts_from s clock transport remaining a sv).1 = inr r ->
  exists i, (a <= i < a + remaining)%nat /\ transport i = Responded r /\
    status_code r = 200 /\ json_ok r = Some true /\
    (forall j, (a <= j < i)%nat -> succeeds (transport j) = false) /\
    posts (trace (attempts_from s clock transport remaining a sv).2)
    = posts (trace sv) ++ seq a (S i - a).
Proof.
  revert a sv. induction remaining as [|rem IH]; intros a sv; [discriminate|].
  cbn [attempts_from].
  assert (Hp := posts_attempt clock a sv).
  set (sv1 := log (Post a) (rate_limit_gate clock sv)) in *.
  destruct (except_clauses _ _ _) as [r'|n|e|] eqn:E; cbn [fst snd].
  - intros [= ->]. apply except_clauses_Return in E as [Ho Hs].
    exists a. rewrite Ho in Hs. simpl in Hs.
    apply andb_true_iff in Hs as [Hst Hok]. apply Z.eqb_eq in Hst.
    split; [lia|]. split; [done|]. split; [done|].
    split; [by destruct (json_ok r) as [[|]|]|].
    split; [intros j Hj; lia|].
    replace (S a - a)%nat with 1%nat by lia. done.
  - intros Hr.
    assert (Ha : succeeds (transport a) = false).
    { destruct (succeeds (transport a)) eqn:Es; [|done].
      destruct (transport a) as [r0| | |]; try discriminate.
      simpl in Es. apply andb_true_iff in Es as [Hst Hok].
      apply Z.eqb_eq in Hst.
      rewrite except_clauses_success in E;
        [discriminate|done|by destruct (json_ok r0) as [[|]|]]. }
    destruct (IH (S a) _ Hr) as (i & Hi & Ho & H200 & Hok & Hbefore & ->).
    exists i. split; [lia|]. do 3 (split; [done|]).
    split.
    { intros j Hj. destruct (decide (j = a)) as [->|]; [done|].
      apply Hbefore. lia. }
    rewrite posts_log, app_nil_r, Hp, <- app_assoc.
    replace (S i - a)%nat with (S (S i - S a)) by lia. done.
  - discriminate.
  - intros Hr.
    assert (Ha : succeeds (transport a) = false).
    { destruct (succeeds (transport a)) eqn:Es; [|done].
      destruct (transport a) as [r0| | |]; try discriminate.
      simpl in Es. apply andb_true_iff in Es as [Hst Hok].
      apply Z.eqb_eq in Hst.
      rewrite except_clauses_success in E;
        [discriminate|done|by destruct (json_ok r0) as [[|]|]]. }
    destruct (IH (S a) _ Hr) as (i & Hi & Ho & H200 & Hok & Hbefore & ->).
    exists i. split; [lia|]. do 3 (split; [done|]).
    split.
    { intros j Hj. destruct (decide (j = a)) as [->|]; [done|].
      apply Hbefore. lia. }
    assert (Hx : forall b : bool,
      posts (trace (if b then log (BackoffSleep (backoff_delay s (Z.of_nat a))) sv1
                    else sv1)) = posts (trace sv1)).
    { intros [|]; [by rewrite posts_log, app_nil_r|done]. }
    rewrite Hx, Hp, <- app_assoc.
    replace (S i - a)%nat with (S (S i - S a)) by lia. done.
Qed.

(** A send returns only a response with status 200 and a true [ok] flag, the
    one of the first attempt that gets such a response, and that attempt is
    the last POST. *)
Theorem returns_first_success (sv : Service) (r : response) :
  (_send_message_with_retry s clock transport sv).1 = inr r ->
  exists i, (i < Z.to_nat (tg_retry_attempts s))%nat /\
    transport i = Responded r /\
    status_code r = 200 /\ json_ok r = Some true /\
    (forall j, (j < i)%nat -> succeeds (transport j) = false) /\
    posts (trace (_send_message_with_retry s clock transport sv).2)
    = posts (trace sv) ++ seq 0 (S i).
Proof.
  intros Hr. apply attempts_from_returns in Hr
    as (i & Hi & Ho & H200 & Hok & Hbefore & Hp).
  exists i. split; [lia|]. do 3 (split; [done|]).
  split; [intros j Hj; apply Hbefore; lia|].
  unfold _send_message_with_retry. rewrite Hp. by rewrite Nat.sub_0_r.
Qed.









(** An answer with status 200 whose [ok] flag is false is not retried: the
    send raises the API error at once, on any attempt. *)
Theorem api_error_raises_at_once
    (remaining attempt : nat) (sv : Service) (r : response) :
  transport attempt = Responded r ->
  status_code r = 200 -> json_ok r = Some false ->
  attempts_from s clock transport (S remaining) attempt sv
  = (inl ApiError, log (Post attempt) (rate_limit_gate clock sv)).
Proof.
  intros Ho Hst Hok. cbn [attempts_from].
  unfold except_clauses, try_body. by rewrite Ho, Hst, Hok.
Qed.

Lemma attempts_from_no_rate_limit_sleep (remaining a : nat) (sv : Service) :
  _request_count (limiter sv) <= Z.of_nat a -> (a + remaining <= 30)%nat ->
  rate_limit_sleeps (trace (attempts_from s clock transport remaining a sv).2)
  = rate_limit_sleeps (trace sv).
Proof.
  revert a sv. induction remaining as [|rem IH]; intros a sv Hc Ha; [done|].
  cbn [attempts_from].
  destruct (rate_limit_gate_below_cap sv) as [Ht Hc']; [lia|].
  set (sv1 := log (Post a) (rate_limit_gate clock sv)).
  assert (H1 : rate_limit_sleeps (trace sv1) = rate_limit_sleeps (trace sv)).
  { subst sv1. by rewrite rate_limit_sleeps_log, app_nil_r, Ht. }
  assert (L1 : _request_count (limiter sv1) <= Z.of_nat (S a)).
  { subst sv1. cbn [log limiter]. lia. }
  destruct (except_clauses _ _ _); cbn [snd]; [done| |done|].
  - rewrite IH; [|exact L1|lia]. by rewrite rate_limit_sleeps_log, app_nil_r.
  - rewrite IH; [| |lia].
    + destruct (_ <? _); [by rewrite rate_limit_sleeps_log, app_nil_r|done].
    + by destruct (_ <? _).
Qed.

End SendMore.

Lemma no_attempts_no_post_witness :
  Telegram._send_message_with_retry no_attempts sample_clock third_time_lucky
    new_service
  = (inl (Telegram.FailedAfter 0), new_service).
Proof.
  apply (no_attempts_no_post no_attempts sample_clock third_time_lucky
           new_service).
  reflexivity.
Defined.

Lemma returns_first_success_witness :
  exists i, (i < Z.to_nat (tg_retry_attempts default_settings))%nat /\
    third_time_lucky i = Telegram.Responded ok_response /\
    Telegram.status_code ok_response = 200 /\
    Telegram.json_ok ok_response = Some true /\
    (forall j, (j < i)%nat -> Telegram.succeeds (third_time_lucky j) = false) /\
    Telegram.posts
      (Telegram.trace
         (Telegram._send_message_with_retry default_settings sample_clock
            third_time_lucky new_service).2)
    = Telegram.posts (Telegram.trace new_service) ++ seq 0 (S i).
Proof.
  apply (returns_first_success default_settings sample_clock third_time_lucky
           new_service ok_response).
  reflexivity.
Defined.



Lemma api_error_raises_at_once_witness :
  Telegram.attempts_from default_settings sample_clock
    (fun _ => Telegram.Responded refused) 3 0 new_service
  = (inl Telegram.ApiError,
     Telegram.log (Telegram.Post 0)
       (Telegram.rate_limit_gate sample_clock new_service)).
Proof.
  apply (api_error_raises_at_once default_settings sample_clock
           (fun _ => Telegram.Responded refused) 2 0 new_service refused);
    reflexivity.
Defined.

(** ** The message and the background task *)

Section DeliveryProps.

Import Telegram Delivery Background Layout.

Lemma len_app (x y : string) : PyLen.len (x +:+ y) = (PyLen.len x + PyLen.len y)%nat.
Proof.
  induction x as [|c x IH]; [done|].
  rewrite append_cons. cbn [PyLen.len]. rewrite IH.
  by destruct (PyLen.is_continuation c).
Qed.

Lemma len_le_length (x : string) : (PyLen.len x <= String.length x)%nat.
Proof.
  induction x as [|c x IH]; [done|]. cbn [PyLen.len String.length].
  destruct (PyLen.is_continuation c); lia.
Qed.

Lemma message_length_formula (w : TradingViewWebhook) :
  PyLen.len (_format_message w)
  = (35 + PyLen.len (ticker w) + PyLen.len (signal w)
     + PyLen.len (float_str (price w)) + PyLen.len (time w)
     + match interval w with
       | Some i => if PyStr.truthy i then 4 + PyLen.len i else 0
       | None => 0
       end
     + match chart w with
       | Some c => if PyStr.truthy c then 23 + PyLen.len c else 0
       | None => 0
       end)%nat.
Proof.
  rewrite _format_message_layout.
  unfold ticker_line, signal_line, time_line, chart_lines.
  destruct (interval w) as [i|], (chart w) as [c|];
    try destruct (PyStr.truthy i); try destruct (PyStr.truthy c);
    cbn [app PyStr.join]; rewrite !len_app; simpl; lia.
Qed.

(** The length of the text, in characters: 35 for the fixed parts, the
    lengths of ticker, signal, price and time, 4 more than the interval
    when there is one, and 23 more than the chart when there is one. *)
Theorem message_length (w : TradingViewWebhook) :
  PyLen.len (_format_message w)
  = (35 + PyLen.len (ticker w) + PyLen.len (signal w)
     + PyLen.len (float_str (price w)) + PyLen.len (time w)
     + match interval w with
       | Some i => if PyStr.truthy i then 4 + PyLen.len i else 0
       | None => 0
       end
     + match chart w with
       | Some c => if PyStr.truthy c then 23 + PyLen.len c else 0
       | None => 0
       end)%nat.
Proof. apply message_length_formula. Qed.

End DeliveryProps.

Section BackgroundProps.

Import Telegram Delivery Background.

Variable s : Settings.

Lemma send_trading_signal_fits clock transport (sv : Service) (w : TradingViewWebhook) :
  (PyLen.len (_format_message w) <= 4096)%nat ->
  send_trading_signal s clock transport sv w
  = (match (_send_message_with_retry s clock transport sv).1 with
     | inr r => inr r
     | inl e => inl (SendFailed e)
     end,
     (_send_message_with_retry s clock transport sv).2).
Proof.
  intros Hlen. unfold send_trading_signal, new_TelegramMessage, validate_text_length.
  destruct (Nat.ltb_spec 4096 (PyLen.len (_format_message w))); [lia|].
  by destruct (_send_message_with_retry s clock transport sv).1.
Qed.


Lemma duplicate_is_skipped_lemma clock transport (now ts : Q)
    (w : TradingViewWebhook) (cache : gmap string Q) :
  cache !! Cache.cache_key w = Some ts ->
  (now - ts < inject_Z (cache_ttl s))%Q ->
  process_webhook_background s clock transport now w cache
  = mkFinished Skipped cache [].
Proof.
  intros Hk Hage. unfold process_webhook_background.
  by rewrite (is_duplicate_message_live _ now w ts cache Hk Hage).
Qed.

(** A duplicate is skipped: nothing is sent and the cache stays as it is. *)
Theorem duplicate_is_skipped clock transport (now ts : Q)
    (w : TradingViewWebhook) (cache : gmap string Q) :
  cache !! Cache.cache_key w = Some ts ->
  (now - ts < inject_Z (cache_ttl s))%Q ->
  process_webhook_background s clock transport now w cache
  = mkFinished Skipped cache [].
Proof. apply duplicate_is_skipped_lemma. Qed.

(** The alert is recorded before it is sent, so whatever becomes of the
    delivery, failure included, the same alert submitted again within the
    TTL is skipped without a POST. *)
Theorem resubmission_is_skipped clock1 transport1 clock2 transport2
    (now1 now2 : Q) (w w' : TradingViewWebhook) (cache : gmap string Q) :
  ticker w' = ticker w -> signal w' = signal w -> time w' = time w ->
  (cache !! Cache.cache_key w = None \/
   exists ts, cache !! Cache.cache_key w = Some ts /\
              (inject_Z (cache_ttl s) <= now1 - ts)%Q) ->
  (now2 - now1 < inject_Z (cache_ttl s))%Q ->
  let first := process_webhook_background s clock1 transport1 now1 w cache in
  let second := process_webhook_background s clock2 transport2 now2 w'
                  (cache_after first) in
  result first <> Skipped /\
  cache_after first = <[Cache.cache_key w := now1]> cache /\
  second = mkFinished Skipped (cache_after first) [].
Proof.
  intros Ht Hs Htm Hfirst Hin first second.
  assert (K : Cache.cache_key w' = Cache.cache_key w)
    by (by apply cache_key_triple).
  assert (E1 : Cache.is_duplicate_message (cache_ttl s) now1 w cache
               = (false, <[Cache.cache_key w := now1]> cache)).
  { destruct Hfirst as [Hnone | (ts & Hts & Hold)].
    - by apply is_duplicate_message_fresh.
    - by eapply is_duplicate_message_stale. }
  assert (F : result first <> Skipped /\
              cache_after first = <[Cache.cache_key w := now1]> cache).
  { subst first. unfold process_webhook_background. rewrite E1. cbn [fst snd].
    by destruct (send_trading_signal _ _ _ _ _).1. }
  destruct F as [F1 F2]. split; [done|]. split; [done|].
  subst second. apply duplicate_is_skipped_lemma with (ts := now1); [|done].
  rewrite F2, K. apply lookup_insert_eq.
Qed.

Lemma process_webhook_background_no_sleep clock transport (now : Q)
    (w : TradingViewWebhook) (cache : gmap string Q) :
  tg_retry_attempts s <= 30 ->
  rate_limit_sleeps
    (events (process_webhook_background s clock transport now w cache)) = [].
Proof.
  intros Hn. unfold process_webhook_background.
  destruct (Cache.is_duplicate_message _ _ _ _).1; [done|].
  assert (H : rate_limit_sleeps
                (trace (send_trading_signal s clock transport
                          (mkService fresh 0 []) w).2) = []).
  { unfold send_trading_signal.
    destruct (new_TelegramMessage _ _ _ _); [|done].
    assert (H0 : rate_limit_sleeps
                   (trace (_send_message_with_retry s clock transport
                             (mkService fresh 0 [])).2) = []).
    { unfold _send_message_with_retry.
      rewrite attempts_from_no_rate_limit_sleep; [done|simpl; lia|lia]. }
    by destruct (_send_message_with_retry _ _ _ _).1. }
  by destruct (send_trading_signal _ _ _ _ _).1.
Qed.

(** A task works on a service of its own, whose counter starts at zero: with
    at most 30 attempts configured (the settings allow 10) the rate-limit
    gate never makes a task wait. *)
Theorem background_never_waits_for_rate_limit clock transport (now : Q)
    (w : TradingViewWebhook) (cache : gmap string Q) :
  tg_retry_attempts s <= 30 ->
  rate_limit_sleeps
    (events (process_webhook_background s clock transport now w cache)) = [].
Proof. apply process_webhook_background_no_sleep. Qed.

(** However many tasks run, and whatever their clocks read, none of them
    waits at the gate. *)
Lemma run_tasks_never_wait (jobs : list job) (cache : gmap string Q) :
  tg_retry_attempts s <= 30 ->
  Forall (fun f => rate_limit_sleeps (events f) = []) (run_tasks s jobs cache).
Proof.
  intros Hn. revert cache. induction jobs as [|j jobs IH]; intros cache.
  - constructor.
  - cbn [run_tasks]. constructor; [|apply IH].
    by apply process_webhook_background_no_sleep.
Qed.

(** *** What one shared service would do *)

Lemma succeeds_true (o : post_outcome) :
  succeeds o = true ->
  exists r, o = Responded r /\ status_code r = 200 /\ json_ok r = Some true.
Proof.
  unfold succeeds. destruct o as [r| | |]; try discriminate.
  intros [H1 H2]%andb_true_iff. exists r. split; [done|].
  split; [lia|]. by destruct (json_ok r) as [[|]|].
Qed.

(** A send whose text fits and whose first POST succeeds is one pass of
    the gate and that POST. *)
Lemma send_trading_signal_first_attempt clock transport (sv : Service)
    (w : TradingViewWebhook) :
  0 < tg_retry_attempts s ->
  (PyLen.len (_format_message w) <= 4096)%nat ->
  succeeds (transport 0%nat) = true ->
  (send_trading_signal s clock transport sv w).2
  = log (Post 0) (rate_limit_gate clock sv) /\
  exists r, (send_trading_signal s clock transport sv w).1 = inr r.
Proof.
  intros Hn Hfit (r & Ho & Hst & Hok)%succeeds_true.
  rewrite send_trading_signal_fits by done.
  unfold _send_message_with_retry.
  destruct (Z.to_nat (tg_retry_attempts s)) as [|k] eqn:E; [lia|].
  rewrite (attempts_from_success s clock transport k 0 sv r Ho Hst Hok).
  cbn [fst snd]. eauto.
Qed.

Lemma rate_limit_gate_in_window clock (c R : Z) (reads : nat) (tr : list event) :
  clock reads < R -> c < 30 ->
  rate_limit_gate clock (mkService (mkRateLimit c (Some R)) reads tr)
  = mkService (mkRateLimit (c + 1) (Some R)) (S reads) tr.
Proof.
  intros Hnow Hc. unfold rate_limit_gate. cbn [limiter clock_reads trace].
  by rewrite _check_rate_limit_in_window.
Qed.

Lemma send_all_app clock xs ys (sv : Service) :
  send_all s clock (xs ++ ys) sv
  = let a := send_all s clock xs sv in
    let b := send_all s clock ys a.2 in
    (a.1 ++ b.1, b.2).
Proof.
  revert sv. induction xs as [|x xs IH]; intros sv.
  - simpl. by destruct (send_all s clock ys sv).
  - cbn [send_all app]. rewrite IH. reflexivity.
Qed.

(** Inside an open window and below the cap, sends only count. *)
Lemma send_all_in_window clock sends (c R : Z) (reads : nat) (tr : list event) :
  0 < tg_retry_attempts s ->
  Forall (fun one => succeeds (one.1 0%nat) = true /\
                     (PyLen.len (_format_message one.2) <= 4096)%nat) sends ->
  (forall n, (reads <= n < reads + length sends)%nat -> clock n < R) ->
  c + Z.of_nat (length sends) <= 30 ->
  (send_all s clock sends (mkService (mkRateLimit c (Some R)) reads tr)).2
  = mkService (mkRateLimit (c + Z.of_nat (length sends)) (Some R))
              (reads + length sends)
              (tr ++ replicate (length sends) (Post 0)).
Proof.
  intros Hn. revert c reads tr.
  induction sends as [|one rest IH]; intros c reads tr Hall Hclock Hc.
  - cbn [send_all snd length replicate]. by rewrite Z.add_0_r, Nat.add_0_r, app_nil_r.
  - apply Forall_cons in Hall as [[Hok Hfit] Hrest].
    cbn [send_all snd length] in *.
    destruct (send_trading_signal_first_attempt clock one.1
                (mkService (mkRateLimit c (Some R)) reads tr) one.2 Hn Hfit Hok)
      as [-> _].
    rewrite rate_limit_gate_in_window; [|apply Hclock; lia|lia].
    unfold log. cbn [limiter clock_reads trace].
    rewrite IH; [|done|intros n Hn'; apply Hclock; lia|lia].
    f_equal; [f_equal; lia|lia|].
    cbn [replicate]. by rewrite <- app_assoc.
Qed.

(** Thirty-one sends through one service, each delivered at its first
    attempt, that all read the clock inside the second opened by the
    first: thirty go through at once and the thirty-first sleeps to the
    end of that second before its POST, after which the count starts
    again with it. *)
Lemma send_all_thirty_first_waits clock first mid last :
  0 < tg_retry_attempts s ->
  length mid = 29%nat ->
  Forall (fun one => succeeds (one.1 0%nat) = true /\
                     (PyLen.len (_format_message one.2) <= 4096)%nat)
         (first :: mid ++ [last]) ->
  (forall n, (1 <= n <= 30)%nat -> clock n < clock 0%nat + second) ->
  let out := send_all s clock (first :: mid ++ [last]) (mkService fresh 0 []) in
  trace out.2
  = replicate 30 (Post 0)
    ++ [RateLimitSleep (Qmake (clock 0%nat + second - clock 30%nat) 1000000);
        Post 0] /\
  limiter out.2 = mkRateLimit 1 (Some (clock 31%nat + second)) /\
  0 < clock 0%nat + second - clock 30%nat.
Proof.
  intros Hn Hlen Hall Hclock out.
  apply Forall_cons in Hall as [[Hok1 Hfit1] Hall].
  apply Forall_app in Hall as [Hmid Hlast].
  apply Forall_cons in Hlast as [[Hok31 Hfit31] _].
  assert (H30 := Hclock 30%nat ltac:(lia)).
  assert (E : out.2
              = mkService (mkRateLimit 1 (Some (clock 31%nat + second))) 32
                  (replicate 30 (Post 0)
                   ++ [RateLimitSleep
                         (Qmake (clock 0%nat + second - clock 30%nat) 1000000);
                       Post 0])).
  { subst out. cbn [send_all snd].
    destruct (send_trading_signal_first_attempt clock first.1
                (mkService fresh 0 []) first.2 Hn Hfit1 Hok1) as [-> _].
    unfold rate_limit_gate at 1. cbn [limiter clock_reads trace].
    rewrite (_check_rate_limit_opens (clock 0%nat) (clock 1%nat) fresh)
      by (left; reflexivity).
    cbn [fst snd]. unfold log at 1. cbn [limiter clock_reads trace app].
    rewrite send_all_app. cbn [snd].
    rewrite (send_all_in_window clock mid 1 (clock 0%nat + second) 1
               [Post 0%nat] Hn Hmid);
      [|intros n Hn'; apply Hclock; lia|lia].
    rewrite Hlen. cbn [send_all snd].
    destruct (send_trading_signal_first_attempt clock last.1
                (mkService (mkRateLimit (1 + Z.of_nat 29)
                              (Some (clock 0%nat + second)))
                   (1 + 29) ([Post 0%nat] ++ replicate 29 (Post 0%nat)))
                last.2 Hn Hfit31 Hok31) as [-> _].
    unfold rate_limit_gate. cbn [limiter clock_reads trace].
    rewrite (_check_rate_limit_at_cap (clock (1 + 29)%nat)
               (clock (S (1 + 29))) (1 + Z.of_nat 29) (clock 0%nat + second))
      by (simpl; lia).
    cbn [fst snd]. unfold log. cbn [limiter clock_reads trace].
    reflexivity. }
  rewrite E. cbn [trace limiter]. repeat split. lia.
Qed.

End BackgroundProps.

(** The burst of thirty-one alerts sent through one service instead, its
    clock read 10 ms further at every look: the thirty-first send sleeps
    the 0.7 s that are left of the second. *)
Lemma burst_through_one_service_waits :
  let clock := fun n : nat => burst_start + 10000 * Z.of_nat n in
  let sends := map (fun j => (Background.job_transport j, Background.job_payload j))
                   burst in
  let out := Delivery.send_all default_settings clock sends new_service in
  Telegram.trace out.2
  = replicate 30 (Telegram.Post 0)
    ++ [Telegram.RateLimitSleep (700000 # 1000000); Telegram.Post 0] /\
  Telegram.limiter out.2
  = Telegram.mkRateLimit 1 (Some (burst_start + 310000 + Telegram.second)).
Proof.
  intros clock sends out.
  destruct (send_all_thirty_first_waits default_settings clock
              (Background.job_transport (burst_job 0),
               Background.job_payload (burst_job 0))
              (map (fun j => (Background.job_transport j, Background.job_payload j))
                   (map burst_job (seq 1 29)))
              (Background.job_transport (burst_job 30),
               Background.job_payload (burst_job 30)))
    as (Ht & Hl & _).
  - reflexivity.
  - reflexivity.
  - repeat (constructor;
            [split; [reflexivity | apply Nat.leb_le; vm_compute; reflexivity]|]).
    constructor.
  - intros n Hn. unfold clock, burst_start, Telegram.second. lia.
  - split; [exact Ht | exact Hl].
Defined.


Lemma duplicate_is_skipped_witness :
  let cache : gmap string Q := <[Cache.cache_key scenario_alert := 1000%Q]> ∅ in
  Background.process_webhook_background default_settings sample_clock
    third_time_lucky 1299.5 scenario_alert cache
  = Background.mkFinished Background.Skipped cache [].
Proof.
  apply (duplicate_is_skipped default_settings sample_clock third_time_lucky
           1299.5 1000 scenario_alert); reflexivity.
Defined.

(** The first delivery runs into timeouts on every attempt; the alert is
    submitted again 100 s later. *)
Lemma resubmission_is_skipped_witness :
  let first := Background.process_webhook_background default_settings
                 sample_clock (fun _ => Telegram.TimeoutException)
                 1000 scenario_alert ∅ in
  let second := Background.process_webhook_background default_settings
                  sample_clock third_time_lucky 1100 scenario_alert
                  (Background.cache_after first) in
  Background.result first <> Background.Skipped /\
  Background.cache_after first
    = <[Cache.cache_key scenario_alert := 1000%Q]> ∅ /\
  second = Background.mkFinished Background.Skipped
             (Background.cache_after first) [].
Proof.
  apply (resubmission_is_skipped default_settings sample_clock
           (fun _ => Telegram.TimeoutException) sample_clock third_time_lucky
           1000 1100 scenario_alert scenario_alert ∅); try reflexivity.
  left. reflexivity.
Defined.

Lemma background_never_waits_for_rate_limit_witness :
  Delivery.rate_limit_sleeps
    (Background.events
       (Background.process_webhook_background default_settings sample_clock
          (fun _ => Telegram.TimeoutException) 1000 scenario_alert ∅)) = [].
Proof.
  apply (background_never_waits_for_rate_limit default_settings sample_clock
           (fun _ => Telegram.TimeoutException) 1000 scenario_alert ∅).
  discriminate.
Defined.

(** ** Signatures *)

Section SigningProps.

Import Security Signing.

Lemma unhex_hex_digit (k : nat) : (k < 16)%nat -> unhex_digit (hex_digit k) = k.
Proof.
  intros Hk. do 16 (destruct k as [|k]; [reflexivity|]). lia.
Qed.

Lemma hex_digit_isascii (k : nat) :
  (k < 16)%nat -> (nat_of_ascii (hex_digit k) <? 128)%nat = true.
Proof.
  intros Hk. do 16 (destruct k as [|k]; [reflexivity|]). lia.
Qed.

Lemma nat_of_ascii_div (c : ascii) : (nat_of_ascii c / 16 < 16)%nat.
Proof.
  pose proof (nat_ascii_bounded c).
  apply Nat.Div0.div_lt_upper_bound. lia.
Qed.

Lemma nat_of_ascii_mod (c : ascii) : (nat_of_ascii c mod 16 < 16)%nat.
Proof. apply Nat.mod_upper_bound. lia. Qed.

Lemma hex_cons (c : ascii) (r : string) :
  hex (String c r)
  = String (hex_digit (nat_of_ascii c / 16))
           (String (hex_digit (nat_of_ascii c mod 16)) (hex r)).
Proof. reflexivity. Qed.

Lemma hex_isascii (b : string) : PyStr.isascii (hex b) = true.
Proof.
  induction b as [|c b IH]; [done|]. rewrite hex_cons. cbn [PyStr.isascii].
  rewrite (hex_digit_isascii _ (nat_of_ascii_div c)).
  rewrite (hex_digit_isascii _ (nat_of_ascii_mod c)). exact IH.
Qed.

Lemma hex_truthy (b : string) : PyStr.truthy (hex b) = PyStr.truthy b.
Proof. by destruct b. Qed.

Lemma String_inj2 (a a' b b' : ascii) (r r' : string) :
  String a (String b r) = String a' (String b' r') ->
  a = a' /\ b = b' /\ r = r'.
Proof. by intros [= -> -> ->]. Qed.

Lemma hex_inj (b1 b2 : string) : hex b1 = hex b2 -> b1 = b2.
Proof.
  revert b2. induction b1 as [|c1 b1 IH]; intros [|c2 b2] H;
    try done; try discriminate.
  rewrite !hex_cons in H. apply String_inj2 in H as (Hhi & Hlo & Hrest).
  apply (f_equal unhex_digit) in Hhi, Hlo.
  rewrite !unhex_hex_digit in Hhi, Hlo
    by (apply nat_of_ascii_div || apply nat_of_ascii_mod).
  f_equal; [|by apply IH].
  rewrite <- (ascii_nat_embedding c1), <- (ascii_nat_embedding c2).
  f_equal.
  pose proof (Nat.div_mod_eq (nat_of_ascii c1) 16).
  pose proof (Nat.div_mod_eq (nat_of_ascii c2) 16). lia.
Qed.

Variable digest : string -> string -> string.

Lemma verify_hexdigest (settings : Settings) (payload key' payload' : string) :
  tv_webhook_secret settings <> "" -> digest key' payload' <> "" ->
  verify_webhook_signature (hexdigest digest) settings payload
    (hexdigest digest key' payload')
  = if String.eqb (digest (tv_webhook_secret settings) payload)
                  (digest key' payload')
    then inr true else inl InvalidSignature.
Proof.
  intros Hs Hd. unfold verify_webhook_signature, try_block, compare_digest.
  unfold hexdigest. rewrite hex_truthy, !hex_isascii.
  apply truthy_nonempty in Hs, Hd. rewrite Hs, Hd. cbn [negb andb].
  destruct (String.eqb_spec (digest (tv_webhook_secret settings) payload)
              (digest key' payload')) as [->|Hne].
  - by rewrite String.eqb_refl.
  - destruct (String.eqb_spec (hex (digest (tv_webhook_secret settings) payload))
                (hex (digest key' payload'))) as [E|_]; [|done].
    by apply hex_inj in E.
Qed.

(** Round trip: the signature that [generate_webhook_signature] makes for a
    payload with the configured secret (passed, or taken from the settings
    when no secret or an empty one is passed) is accepted by the verifier
    for that payload. *)
Theorem generated_signature_verifies
    (settings : Settings) (payload : string) (secret : option string) :
  tv_webhook_secret settings <> "" ->
  digest (tv_webhook_secret settings) payload <> "" ->
  secret = None \/ secret = Some "" \/ secret = Some (tv_webhook_secret settings) ->
  exists signature,
    generate_webhook_signature digest settings payload secret = Some signature /\
    verify_webhook_signature (hexdigest digest) settings payload signature
    = inr true.
Proof.
  intros Hs Hd Hsec.
  exists (hexdigest digest (tv_webhook_secret settings) payload). split.
  - unfold generate_webhook_signature.
    pose proof (proj2 (truthy_nonempty _) Hs) as Ht.
    destruct Hsec as [-> | [-> | ->]]; cbn [PyStr.opt_truthy PyStr.truthy];
      by rewrite ?Ht.
  - rewrite verify_hexdigest by done. by rewrite String.eqb_refl.
Qed.

(** A signature made from another digest, of another payload or with
    another key, is refused as invalid. *)
Theorem signature_of_other_digest_is_refused
    (settings : Settings) (payload key' payload' : string) :
  tv_webhook_secret settings <> "" ->
  digest key' payload' <> "" ->
  digest key' payload' <> digest (tv_webhook_secret settings) payload ->
  verify_webhook_signature (hexdigest digest) settings payload
    (hexdigest digest key' payload')
  = inl InvalidSignature.
Proof.
  intros Hs Hd Hne. rewrite verify_hexdigest by done.
  destruct (String.eqb_spec (digest (tv_webhook_secret settings) payload)
              (digest key' payload')); [congruence|done].
Qed.

End SigningProps.

Lemma generated_signature_verifies_witness :
  exists signature,
    Signing.generate_webhook_signature toy_digest default_settings "body" None
      = Some signature /\
    Security.verify_webhook_signature (Signing.hexdigest toy_digest)
      default_settings "body" signature = inr true.
Proof.
  apply (generated_signature_verifies toy_digest default_settings "body" None);
    [discriminate | discriminate | by left].
Defined.

Lemma signature_of_other_digest_is_refused_witness :
  Security.verify_webhook_signature (Signing.hexdigest toy_digest)
    default_settings "body"
    (Signing.hexdigest toy_digest "test_secret_key_for_hmac_validation" "tampered")
  = inl Security.InvalidSignature.
Proof.
  apply (signature_of_other_digest_is_refused toy_digest default_settings
           "body" "test_secret_key_for_hmac_validation" "tampered");
    discriminate.
Defined.

(** ** The request handler, further *)

Section ApiMore.

Import Api.

Variable json : string -> option (option Models.RawWebhook).

Lemma receive_tradingview_webhook_cases rid now cache (req : Request) :
  let h := receive_tradingview_webhook json rid now cache req in
  (exists b raw w,
     body req = Some b /\
     json b = Some (Some raw) /\ Models.validate raw = inr w /\
     response h
       = JSONResponse 202
           (mkWebhookResponse "accepted" (Some "Webhook received and processing")
              (Some rid) now) rid /\
     background_tasks h
       = process_webhook_background w rid
         :: (if (100 <? size cache)%nat then [cleanup_cache] else [])) \/
  (background_tasks h = [] /\
   exists d, response h = HTTPException 400 d \/ response h = HTTPException 422 d) \/
  (background_tasks h = [] /\ body req = None /\
   response h
     = JSONResponse 500
         (mkWebhookResponse "error" (Some "Internal server error") (Some rid) now)
         rid).
Proof.
  unfold receive_tradingview_webhook.
  destruct (body req) as [b|]; cbn [response background_tasks]; [|by right; right].
  destruct (json b) as [[raw|]|] eqn:Ej; cbn [response background_tasks].
  - destruct (Models.validate raw) as [errs|w] eqn:E;
      cbn [response background_tasks].
    + right. left. eauto.
    + left. exists b, raw, w.
      split; [done|]. split; [done|]. split; [done|]. split; [done|].
      by destruct (100 <? size cache)%nat.
  - right. left. eauto.
  - right. left. eauto.
Qed.

(** The handler schedules work only for a request it accepts.  A request
    answered 400, 422 or 500 leaves no background task, and only such a
    request leaves none.  A JSON response carries the request id and is
    one of two: 202 "accepted" for a body that was read, parsed and
    validated, with the delivery of that validated payload scheduled first
    under the same request id, followed by a cache cleanup exactly when
    the cache holds more than 100 entries; or 500 "error" for a request
    whose body could not be read, with nothing scheduled. *)
Theorem handler_schedules_only_accepted rid now cache (req : Request) :
  let h := receive_tradingview_webhook json rid now cache req in
  (background_tasks h = [] <->
   (exists st d, response h = HTTPException st d /\ (st = 400 \/ st = 422)) \/
   (exists c, response h = JSONResponse 500 c rid)) /\
  (forall st c x, response h = JSONResponse st c x ->
     request_id c = Some rid /\ x = rid /\
     ((st = 202 /\ status c = "accepted" /\
       exists b raw w,
         body req = Some b /\
         json b = Some (Some raw) /\ Models.validate raw = inr w /\
         background_tasks h
         = process_webhook_background w rid
           :: (if (100 <? size cache)%nat then [cleanup_cache] else [])) \/
      (st = 500 /\ status c = "error" /\
       message c = Some "Internal server error" /\
       body req = None /\ background_tasks h = []))).
Proof.
  intros h.
  destruct (receive_tradingview_webhook_cases rid now cache req)
    as [(b & raw & w & Hb & Hj & Hv & Hr & Ht)
       | [(Ht & d & Hr) | (Ht & Hb & Hr)]]; fold h in Hr, Ht.
  - split.
    + rewrite Ht, Hr. split; [discriminate|].
      intros [(? & ? & ? & _) | (? & ?)]; discriminate.
    + intros st c x. rewrite Hr. intros [= <- <- <-].
      split; [done|]. split; [done|]. left.
      split; [done|]. split; [done|]. eauto 10.
  - split.
    + split; [|done]. intros _. left.
      destruct Hr as [Hr|Hr]; rewrite Hr; eauto.
    + intros st c x Hx. destruct Hr as [Hr|Hr]; congruence.
  - split.
    + split; [|done]. intros _. right. rewrite Hr. eauto.
    + intros st c x. rewrite Hr. intros [= <- <- <-].
      split; [done|]. split; [done|]. right. by repeat split.
Qed.

End ApiMore.

(** ** The settings *)

Section ConfigProps.

Import Models Config Telegram Delivery Background.

Lemma member_In (x : string) (xs : list string) :
  member x xs = true <-> In x xs.
Proof.
  unfold member. rewrite existsb_exists. split.
  - intros (y & Hy & E). apply String.eqb_eq in E. by subst.
  - intros H. exists x. split; [done|apply String.eqb_refl].
Qed.

(** An accepted log level is stored in upper case, is one of the five
    levels, and is accepted again as it is. *)
Theorem log_level_normal_form (v l : string) :
  validate_log_level v = Valid l ->
  l = PyStr.upper v /\ In l valid_levels /\ validate_log_level l = Valid l.
Proof.
  unfold validate_log_level.
  destruct (member (PyStr.upper v) valid_levels) eqn:E; [|discriminate].
  intros [= <-]. split; [done|]. split; [by apply member_In|].
  by rewrite upper_idem, E.
Qed.

Lemma is_digit_not_dash (c : ascii) : is_digit c = true -> Ascii.eqb c "-" = false.
Proof.
  destruct (Ascii.eqb_spec c "-") as [->|]; [discriminate|done].
Qed.

Lemma lstrip_dash_decompose (v : string) :
  exists k, v = dashes k +:+ lstrip_dash v.
Proof.
  induction v as [|c v [k IH]]; [by exists 0%nat|].
  cbn [lstrip_dash]. destruct (Ascii.eqb_spec c "-") as [->|].
  - exists (S k). cbn [dashes]. rewrite append_cons. by rewrite <- IH.
  - by exists 0%nat.
Qed.

Lemma lstrip_dash_digits (k : nat) (ds : string) :
  isdigit ds = true -> lstrip_dash (dashes k +:+ ds) = ds.
Proof.
  intros Hd. induction k as [|k IH].
  - rewrite append_nil_l. destruct ds as [|c r]; [done|].
    unfold isdigit in Hd. cbn [PyStr.truthy all_digits andb] in Hd.
    apply andb_true_iff in Hd as [Hc _].
    cbn [lstrip_dash]. by rewrite (is_digit_not_dash c Hc).
  - cbn [dashes]. rewrite append_cons. cbn [lstrip_dash].
    by rewrite Ascii.eqb_refl.
Qed.

(** An ASCII chat id is accepted exactly when it starts with "@" or is
    made of any number of dashes followed by at least one digit; it is
    stored as it is.  (Beyond ASCII, [isdigit] accepts further digits.) *)
Theorem validate_chat_id_accepts_iff (v c : string) :
  PyStr.isascii v = true ->
  validate_chat_id v = Valid c <->
  c = v /\
  (PyStr.startswith v "@" = true \/
   exists k ds, v = dashes k +:+ ds /\ isdigit ds = true).
Proof.
  intros _. unfold validate_chat_id. destruct v as [|a v].
  - cbn [PyStr.truthy negb]. split; [discriminate|].
    intros [_ [H | (k & ds & Hv & Hd)]]; [discriminate|].
    destruct k; [|discriminate]. rewrite append_nil_l in Hv. by subst.
  - cbn [PyStr.truthy negb].
    destruct (PyStr.startswith (String a v) "@") eqn:E1; cbn [orb negb].
    + split; [intros [= <-]; auto|]. by intros [-> _].
    + destruct (isdigit (lstrip_dash (String a v))) eqn:E2; cbn [negb].
      * split; [|by intros [-> _]]. intros [= <-]. split; [done|]. right.
        destruct (lstrip_dash_decompose (String a v)) as [k Hk]. eauto.
      * split; [discriminate|].
        intros [_ [H | (k & ds & Hv & Hd)]]; [discriminate|].
        rewrite Hv, (lstrip_dash_digits k ds Hd) in E2. congruence.
Qed.

Variable s : Settings.

(** With a number of attempts that the settings accept (0 to 10), a
    background task makes at most 10 POSTs. *)
Theorem validated_attempts_bound_posts clock transport (now : Q)
    (w : TradingViewWebhook) (cache : gmap string Q) (n : Z) :
  validate_retry_attempts (tg_retry_attempts s) = Valid n ->
  (length (posts (events (process_webhook_background s clock transport now
                            w cache))) <= 10)%nat.
Proof.
  unfold validate_retry_attempts.
  destruct (Z.ltb_spec (tg_retry_attempts s) 0); [discriminate|].
  destruct (Z.ltb_spec 10 (tg_retry_attempts s)); [discriminate|].
  intros _. unfold process_webhook_background.
  destruct (Cache.is_duplicate_message _ _ _ _).1; [simpl; lia|].
  assert (H1 : (length (posts (trace (send_trading_signal s clock transport
                          (mkService fresh 0 []) w).2)) <= 10)%nat).
  { unfold send_trading_signal.
    destruct (new_TelegramMessage _ _ _ _); [|simpl; lia].
    assert (H2 := attempts_from_posts_le s clock transport
                    (Z.to_nat (tg_retry_attempts s)) 0 (mkService fresh 0 [])).
    change (length (posts (trace (mkService fresh 0 [])))) with 0%nat in H2.
    unfold _send_message_with_retry.
    destruct (attempts_from _ _ _ _ _ _).1; cbn [snd]; lia. }
  by destruct (send_trading_signal _ _ _ _ _).1.
Qed.

End ConfigProps.

Lemma log_level_normal_form_witness :
  "WARNING" = PyStr.upper "warning" /\ In "WARNING" Config.valid_levels /\
  Config.validate_log_level "WARNING" = Models.Valid "WARNING".
Proof.
  apply (log_level_normal_form "warning" "WARNING"). reflexivity.
Defined.

(** The id of a supergroup. *)
Lemma validate_chat_id_accepts_iff_witness :
  Config.validate_chat_id "-1001234567890" = Models.Valid "-1001234567890" <->
  "-1001234567890" = "-1001234567890" /\
  (PyStr.startswith "-1001234567890" "@" = true \/
   exists k ds, "-1001234567890" = Config.dashes k +:+ ds /\
                Config.isdigit ds = true).
Proof.
  apply (validate_chat_id_accepts_iff "-1001234567890" "-1001234567890").
  reflexivity.
Defined.

Lemma validated_attempts_bound_posts_witness :
  (length (Telegram.posts
             (Background.events
                (Background.process_webhook_background five_attempts
                   sample_clock (fun _ => Telegram.RequestError) 1000
                   scenario_alert ∅))) <= 10)%nat.
Proof.
  apply (validated_attempts_bound_posts five_attempts sample_clock
           (fun _ => Telegram.RequestError) 1000 scenario_alert ∅ 5).
  reflexivity.
Defined.
